(** * Radiology impression generator: the document-to-prompt pipeline

    A shallow embedding of [radiology_impressions.py]: the prompt store
    (a JSON record file), the document store (one DOCX per study type),
    the DOCX text extraction fallback, the prompt assembly by
    [str.replace], the token estimate and the submission handler.

    Python values are modelled as follows.
    - [str] is a sequence of Unicode code points: [list N].
    - [float] is IEEE 754 binary64, through [SpecFloat] with
      [prec = 53] and [emax = 1024].
    - [dict] with string keys is a [gmap (list N) _].
    - An exception is a [Raise] result; [try/except Exception] is a
      match on the result. *)

From Stdlib Require Import ZArith NArith Strings.Ascii Strings.String Strings.Byte.
From Stdlib Require Import DecimalString DecimalNat Floats.SpecFloat.
From stdpp Require Import base option list gmap.

#[local] Open Scope list_scope.
#[local] Set Warnings "-register-all".

(** ** Strings *)

(** A Python [str]: its code points, in order. *)
Abbreviation str := (list N).

(** A string literal of the source (ASCII only). *)
Fixpoint py (s : string) : str :=
  match s with
  | EmptyString => []
  | String a s' => N_of_ascii a :: py s'
  end.

(** [s.startswith(prefix)] *)
Fixpoint startswith (s prefix : str) {struct prefix} : bool :=
  match prefix, s with
  | [], _ => true
  | p :: prefix', c :: s' => if N.eqb p c then startswith s' prefix' else false
  | _ :: _, [] => false
  end.

(** [sub in s] *)
Fixpoint contains (sub s : str) : bool :=
  startswith s sub ||
  match s with
  | [] => false
  | _ :: s' => contains sub s'
  end.

(** The scan of [str.replace] for a non-empty pattern: at each position,
    left to right, a match is replaced and the scan resumes after it.
    [fuel] bounds the number of positions visited. *)
Fixpoint replace_loop (fuel : nat) (old new s : str) : str :=
  match fuel, s with
  | S fuel', c :: s' =>
      if startswith s old
      then new ++ replace_loop fuel' old new (drop (length old) s)
      else c :: replace_loop fuel' old new s'
  | _, _ => s
  end.

(** [s.replace(old, new)]; with an empty pattern Python inserts [new]
    before every character and at the end. *)
Definition replace (s old new : str) : str :=
  match old with
  | [] => new ++ concat (map (fun c => c :: new) s)
  | _ :: _ => replace_loop (length s) old new s
  end.

(** [sep.join(parts)] *)
Fixpoint join (sep : str) (parts : list str) : str :=
  match parts with
  | [] => []
  | [p] => p
  | p :: rest => p ++ sep ++ join sep rest
  end.

(** [str.isspace] on one code point: the characters [str.split()] and
    [str.strip()] treat as whitespace. *)
Definition isspace (c : N) : bool :=
  ((9 <=? c) && (c <=? 13) || (28 <=? c) && (c <=? 32)
   || (c =? 133) || (c =? 160) || (c =? 5760)
   || (8192 <=? c) && (c <=? 8202)
   || (c =? 8232) || (c =? 8233) || (c =? 8239) || (c =? 8287)
   || (c =? 12288))%N.

(** [s.lstrip()], [s.rstrip()], [s.strip()] *)
Fixpoint lstrip (s : str) : str :=
  match s with
  | c :: s' => if isspace c then lstrip s' else s
  | [] => []
  end.

Definition rstrip (s : str) : str := rev (lstrip (rev s)).

Definition strip (s : str) : str := rstrip (lstrip s).

(** [s.split()]: the maximal runs of non-whitespace characters.
    [cur] is the word being read, reversed. *)
Fixpoint split_loop (cur : str) (s : str) : list str :=
  match s with
  | [] => match cur with [] => [] | _ => [rev cur] end
  | c :: s' =>
      if isspace c
      then match cur with
           | [] => split_loop [] s'
           | _ => rev cur :: split_loop [] s'
           end
      else split_loop (c :: cur) s'
  end.

Definition split (s : str) : list str := split_loop [] s.

(** ** Constants of the module *)

Definition PLACEHOLDER : str := py "{document_content}".

Definition NO_DOCUMENT_NOTICE : str :=
  py "No reference document available for this study type.".

Definition DEFAULT_PROMPT : str := py
"You are an expert radiologist creating a concise radiology impression section following RCR 2018 standards.

CRITICAL INSTRUCTIONS:
1. You MUST follow ALL steps, protocols, and guidelines mentioned in the REFERENCE DOCUMENT below
2. Read the ENTIRE reference document carefully before generating the impression
3. Apply every relevant checklist, measurement standard, and reporting requirement from the document
4. If the document specifies a structure or format, follow it exactly
5. If the document mentions specific terminology or classifications, use them

Generate the impression as exactly 3-4 bullet points:
- Summarize key findings following document protocols
- State primary diagnosis or differential as per document guidelines
- Include any measurements or specifics required by the document

Use clear, standardized terminology as specified in the reference document.

---REFERENCE DOCUMENT START---
{document_content}
---REFERENCE DOCUMENT END---

Now generate the impression following ALL guidelines above.".

Definition DEFAULT_STUDIES : list str :=
  map py
    ["CT Chest"; "CT Abdomen/Pelvis"; "CT Head/Brain"; "CT Spine";
     "MRI Brain"; "MRI Spine"; "MRI Abdomen"; "MRI Pelvis";
     "MRI Musculoskeletal"; "MRI Cardiac"; "Ultrasound Abdomen";
     "Ultrasound Pelvis"; "Ultrasound Renal"; "Ultrasound Cardiac";
     "Chest X-ray"; "MRCP"; "CTA"; "MRA"]%string.

(** ** Prompt assembly *)

(** [template.replace("{document_content}", document_content)], the
    expression of the submission handler and of the sidebar estimate. *)
Definition assemble (template document_content : str) : str :=
  replace template PLACEHOLDER document_content.

(** ** Floating point: Python's [float] is binary64 *)

Definition prec : Z := 53.
Definition emax : Z := 1024.

Abbreviation float := spec_float.

(** The conversion of an [int] operand of a mixed [int * float]
    product, round to nearest even.  Python raises [OverflowError] from
    2^1024 on, where this gives the infinity; [len] of a list stays
    below 2^63. *)
Definition float_of_int (n : Z) : float := binary_normalize prec emax n 0 false.

Definition fmul (x y : float) : float := SFmul prec emax x y.

(** [x > n] for a float [x] and an [int] literal [n] that is a float. *)
Definition float_gt_int (x : float) (n : Z) : bool := SFltb (float_of_int n) x.

(** The literal [1.3]: 0x3FF4CCCCCCCCCCCD. *)
Definition F1_3 : float := S754_finite false 5854679515581645 (-52).

(** [def count_tokens_estimate(text)] *)
Definition count_tokens_estimate (text : str) : float :=
  fmul (float_of_int (Z.of_nat (length (split text)))) F1_3.

(** ** Exceptions *)

Inductive exn :=
  | AttributeError
  | TypeError
  | ValueError
  | FileNotFoundError
  | OSError
  | LibraryError.

Inductive result (A : Type) :=
  | Ok (a : A)
  | Raise (e : exn).
Arguments Ok {A} a.
Arguments Raise {A} e.

Definition bind {A B : Type} (r : result A) (k : A -> result B) : result B :=
  match r with
  | Ok a => k a
  | Raise e => Raise e
  end.

Notation "'let*' x ':=' r 'in' k" := (bind r (fun x => k))
  (at level 10, x name, r at level 100, k at level 200).

(** ** The files on disk *)

(** What [json.load] returns. *)
Inductive json :=
  | JNull
  | JBool (b : bool)
  | JNumber (literal : str)
  | JStr (s : str)
  | JArr (items : list json)
  | JObj (members : gmap (list N) json).

(** [config/study_prompts.json]: absent; present but [open] or
    [json.load] raises; or present and [json.load] returns [v].
    [json.dump] followed by [json.load] is the identity. *)
Inductive prompts_file_state :=
  | PromptsAbsent
  | PromptsUnreadable
  | PromptsJson (v : json).

(** The regular files under [config/], by path. *)
Record disk := {
  prompts_file : prompts_file_state;
  files : gmap (list N) (list byte);
}.

(** What the operating system does with one [open(..., 'w')] and the
    writes that follow: success; [open] raises and the file is as it
    was; or [open] has truncated the file and a write raises after
    [written] bytes. *)
Inductive io_outcome :=
  | IoOk
  | IoOpenFails
  | IoWriteFails (written : nat).

Definition PROMPTS_FILE : str := py "config/study_prompts.json".
Definition DOCUMENTS_DIR : str := py "config/study_documents".

(** ** Prompt store *)

(** [def load_study_prompts()] *)
Definition load_study_prompts (d : disk) : json :=
  match prompts_file d with
  | PromptsAbsent => JObj ∅
  | PromptsUnreadable => JObj ∅
  | PromptsJson v => v
  end.

(** [def save_study_prompt(study_name, prompt)]: the item assignment
    raises [TypeError] on what is not a [dict]; a failure of the write
    is caught and reported as [False]. *)
Definition save_study_prompt (d : disk) (study_name prompt : str)
    (io : io_outcome) : result (disk * bool) :=
  match load_study_prompts d with
  | JObj prompts =>
      let prompts' := <[study_name := JStr prompt]> prompts in
      match io with
      | IoOk =>
          Ok ({| prompts_file := PromptsJson (JObj prompts');
                 files := files d |}, true)
      | IoOpenFails => Ok (d, false)
      | IoWriteFails _ =>
          Ok ({| prompts_file := PromptsUnreadable; files := files d |}, false)
      end
  | _ => Raise TypeError
  end.

(** [def get_study_prompt(study_name)]: [prompts.get] is an attribute
    of a [dict] only. *)
Definition get_study_prompt (d : disk) (study_name : str) : result json :=
  match load_study_prompts d with
  | JObj prompts => Ok (default (JStr DEFAULT_PROMPT) (prompts !! study_name))
  | _ => Raise AttributeError
  end.

(** ** Document store *)

(** [def get_study_document_path(study_name)]: the path as a POSIX
    string; the file name holds no separator. *)
Definition safe_name (study_name : str) : str :=
  replace (replace study_name (py "/") (py "_")) (py " ") (py "_").

Definition get_study_document_path (study_name : str) : str :=
  DOCUMENTS_DIR ++ py "/" ++ safe_name study_name ++ py ".docx".

(** [Path.exists] *)
Definition path_exists (d : disk) (file_path : str) : bool :=
  bool_decide (is_Some (files d !! file_path)).

(** [def save_study_document(study_name, uploaded_file)] *)
Definition save_study_document (d : disk) (study_name : str)
    (buffer : list byte) (io : io_outcome) : disk * bool :=
  let doc_path := get_study_document_path study_name in
  match io with
  | IoOk =>
      ({| prompts_file := prompts_file d;
          files := <[doc_path := buffer]> (files d) |}, true)
  | IoOpenFails => (d, false)
  | IoWriteFails written =>
      ({| prompts_file := prompts_file d;
          files := <[doc_path := take written buffer]> (files d) |}, false)
  end.

(** [Path.unlink]; [permitted] is the operating system's answer. *)
Definition unlink (d : disk) (file_path : str) (permitted : bool)
    : result disk :=
  if path_exists d file_path then
    if permitted
    then Ok {| prompts_file := prompts_file d;
               files := delete file_path (files d) |}
    else Raise OSError
  else Raise FileNotFoundError.

(** The "Remove Document" button: [try: doc_path.unlink() ... except]. *)
Definition remove_document (d : disk) (config_study : str)
    (permitted : bool) : disk * bool :=
  match unlink d (get_study_document_path config_study) permitted with
  | Ok d' => (d', true)
  | Raise _ => (d, false)
  end.

(** ** Document extraction *)

(** What [python-docx] gives for a document: the paragraphs with their
    text, style name and runs, and the tables as rows of cell texts. *)
Record run := { run_bold : option bool }.

Record paragraph := {
  para_text : str;
  para_style_name : str;
  para_runs : list run;
}.

Record document := {
  doc_paragraphs : list paragraph;
  doc_tables : list (list (list str));
}.

(** What lies outside the module: the character classes of the Unicode
    database, and the two extraction libraries, each absent ([None]) or
    a function of the file's bytes that returns or raises. *)
Record environment := {
  cp_isupper : N -> bool;
  cp_islower : N -> bool;
  cp_istitle : N -> bool;
  cp_isdigit : N -> bool;
  cp_decimal : N -> option nat;
  docx2txt_process : option (list byte -> result str);
  DocxDocument : option (list byte -> result document);
}.

(** [s * n] *)
Definition str_times (s : str) (n : nat) : str := concat (replicate n s).

(** [s.endswith(suffix)] *)
Definition endswith (s suffix : str) : bool := startswith (rev s) (rev suffix).

(** [s.isupper()]: no lowercase or titlecase character, and an
    uppercase one. *)
Fixpoint isupper_loop (env : environment) (cased : bool) (s : str) : bool :=
  match s with
  | [] => cased
  | ch :: s' =>
      if cp_islower env ch || cp_istitle env ch then false
      else isupper_loop env (cased || cp_isupper env ch) s'
  end.

Definition isupper (env : environment) (s : str) : bool :=
  isupper_loop env false s.

(** [s.isdigit()] *)
Definition isdigit (env : environment) (s : str) : bool :=
  match s with
  | [] => false
  | _ => forallb (cp_isdigit env) s
  end.

(** [int(s)] on a string of digits: [ValueError] on a digit that is
    not a decimal one. *)
Fixpoint int_loop (env : environment) (acc : nat) (s : str) : result nat :=
  match s with
  | [] => Ok acc
  | ch :: s' =>
      match cp_decimal env ch with
      | Some v => int_loop env (10 * acc + v) s'
      | None => Raise ValueError
      end
  end.

Definition int_of_digits (env : environment) (s : str) : result nat :=
  int_loop env 0 s.

(** The decimal rendering of a number in an f-string. *)
Definition str_of_nat (n : nat) : str :=
  py (DecimalString.NilZero.string_of_uint (Nat.to_uint n)).

(** The body of [for para in doc.paragraphs]: the lines one paragraph
    appends to [structured_content]. *)
Definition paragraph_lines (env : environment) (para : paragraph)
    : result (list str) :=
  let text := strip (para_text para) in
  match text with
  | [] => Ok [ [] ]
  | _ :: _ =>
      if startswith (para_style_name para) (py "Heading") then
        let level := strip (replace (para_style_name para) (py "Heading") []) in
        if isdigit env level then
          let* n := int_of_digits env level in
          Ok [ []; str_times (py "#") n ++ py " " ++ text;
               str_times (py "-") (length text) ]
        else
          Ok [ []; py "## " ++ text; str_times (py "-") (length text) ]
      else if (length text <? 100)
              && (isupper env text || endswith text (py ":")
                  || match para_runs para with
                     | [] => false
                     | r :: _ => bool_decide (run_bold r = Some true)
                     end)
      then Ok [ []; py "### " ++ text; [] ]
      else Ok [ text ]
  end.

Fixpoint paragraphs_lines (env : environment) (paras : list paragraph)
    : result (list str) :=
  match paras with
  | [] => Ok []
  | para :: rest =>
      let* here := paragraph_lines env para in
      let* after := paragraphs_lines env rest in
      Ok (here ++ after)
  end.

(** [" | ".join([cell.text.strip() for cell in row.cells])] *)
Definition row_text (cells : list str) : str := join (py " | ") (map strip cells).

(** The body of [for row in table.rows]: the lines one row appends. *)
Definition row_lines (cells : list str) : list str :=
  match row_text cells with
  | [] => []
  | text => [text]
  end.

(** The body of [for i, table in enumerate(doc.tables)]. *)
Definition table_lines (i : nat) (table : list (list str)) : list str :=
  (py "
[Table " ++ str_of_nat (i + 1) ++ py "]")
  :: concat (map row_lines table) ++ [ [] ].

Fixpoint tables_lines (i : nat) (tables : list (list (list str))) : list str :=
  match tables with
  | [] => []
  | table :: rest => table_lines i table ++ tables_lines (S i) rest
  end.

(** [if doc.tables: ...]: the table section. *)
Definition tables_section (tables : list (list (list str))) : list str :=
  match tables with
  | [] => []
  | _ :: _ =>
      [ []; str_times (py "=") 80; py "TABLES FROM DOCUMENT";
        str_times (py "=") 80 ] ++ tables_lines 0 tables
  end.

(** Method 2 of [load_document_content]. *)
Definition structured_content (env : environment) (doc : document)
    : result (list str) :=
  let* body := paragraphs_lines env (doc_paragraphs doc) in
  Ok ([ str_times (py "=") 80; py "REFERENCE DOCUMENT - COMPLETE CONTENT";
        str_times (py "=") 80; [] ]
      ++ body ++ tables_section (doc_tables doc)).

(** The [try] block of [load_document_content], on the file's bytes. *)
Definition load_document_try (env : environment) (bytes : list byte)
    : result str :=
  let method2 :=
    match DocxDocument env with
    | Some open_docx =>
        let* doc := open_docx bytes in
        let* lines := structured_content env doc in
        Ok (join (py "
") lines)
    | None => Ok []
    end in
  match docx2txt_process env with
  | Some process =>
      let* content := process bytes in
      match strip content with
      | [] => method2
      | stripped => Ok stripped
      end
  | None => method2
  end.

(** [def load_document_content(file_path)] *)
Definition load_document_content (env : environment) (d : disk)
    (file_path : str) : str :=
  match files d !! file_path with
  | None => []
  | Some bytes =>
      match load_document_try env bytes with
      | Ok content => content
      | Raise _ => []
      end
  end.

(** ** The sidebar's token banner *)

Inductive banner := BannerError | BannerWarning | BannerSuccess.

(** [if est_tokens > 100000: st.error ... elif est_tokens > 50000:
    st.warning ... else: st.success ...] *)
Definition token_banner (est_tokens : float) : banner :=
  if float_gt_int est_tokens 100000 then BannerError
  else if float_gt_int est_tokens 50000 then BannerWarning
  else BannerSuccess.

(** The estimate shown under the prompt editor, when one is shown. *)
Definition sidebar_token_estimate (env : environment) (d : disk)
    (config_study edited_prompt : str) : option banner :=
  if contains PLACEHOLDER edited_prompt then
    let doc_path := get_study_document_path config_study in
    if path_exists d doc_path then
      let doc_content := load_document_content env d doc_path in
      let filled_prompt := replace edited_prompt PLACEHOLDER doc_content in
      Some (token_banner (count_tokens_estimate filled_prompt))
    else None
  else None.

(** ** The submission handler *)

(** What one run of [if submit and openai_api_key:] ends in: nothing,
    the "Document too large" error, or the request to the API. *)
Inductive submission :=
  | NotSubmitted
  | TooLarge (system_prompt : str)
  | ApiCall (system_prompt user_prompt : str).

(** The document text of the handler. *)
Definition document_content_for (env : environment) (d : disk)
    (study_type : str) : str :=
  let doc_path := get_study_document_path study_type in
  if path_exists d doc_path
  then load_document_content env d doc_path
  else NO_DOCUMENT_NOTICE.

(** [system_prompt]; [replace] is an attribute of a [str] only. *)
Definition system_prompt_for (env : environment) (d : disk)
    (study_type : str) : result str :=
  let* study_prompt_template := get_study_prompt d study_type in
  let document_content := document_content_for env d study_type in
  match study_prompt_template with
  | JStr template => Ok (assemble template document_content)
  | _ => Raise AttributeError
  end.

(** The f-string [user_prompt]. *)
Definition user_prompt_for (study_type history findings : str) : str :=
  py "
Study Type: " ++ study_type ++ py "
Clinical History: " ++ (match history with [] => py "Not provided" | _ => history end)
  ++ py "
Key Findings: " ++ findings ++ py "

Following ALL protocols and guidelines in the reference document above, generate a concise impression in 3-4 bullet points.".

(** [if total_tokens > 120000: st.error(...) else: ... create(...)] *)
Definition token_gate (total_tokens : float) (system_prompt user_prompt : str)
    : submission :=
  if float_gt_int total_tokens 120000
  then TooLarge system_prompt
  else ApiCall system_prompt user_prompt.

(** [if submit and openai_api_key: ...] *)
Definition submission_handler (env : environment) (d : disk)
    (submit : bool) (openai_api_key study_type history findings : str)
    : result submission :=
  if submit && negb (bool_decide (openai_api_key = [])) then
    let* system_prompt := system_prompt_for env d study_type in
    let total_tokens := count_tokens_estimate system_prompt in
    Ok (token_gate total_tokens system_prompt
          (user_prompt_for study_type history findings))
  else Ok NotSubmitted.

(** ** Specification-side readings *)

(** The number of whitespace-separated words of a text, read off the
    text itself: the positions that hold a non-whitespace character and
    follow the start of the text or a whitespace character. *)
Fixpoint word_starts (after_space : bool) (s : str) : nat :=
  match s with
  | [] => 0
  | c :: s' =>
      (if after_space && negb (isspace c) then 1 else 0)
      + word_starts (isspace c) s'
  end.

Definition word_count (text : str) : nat := word_starts true text.

(** The character-wise reading of the two replacements of
    [get_study_document_path]. *)
Definition sanitize_char (c : N) : N :=
  if (c =? 47)%N || (c =? 32)%N then 95%N else c.

(** A study without an entry in the record file: the file is absent,
    cannot be loaded, or holds a mapping without the study's key. *)
Definition no_prompt_entry (d : disk) (study_name : str) : Prop :=
  prompts_file d = PromptsAbsent
  \/ prompts_file d = PromptsUnreadable
  \/ exists prompts : gmap (list N) json,
       prompts_file d = PromptsJson (JObj prompts)
       /\ prompts !! study_name = None.

(** ** Binary64 rounding, read arithmetically *)

(** What the round and sticky bits of a shift record say about the
    remainder [rem] of the division by [2 ^ n] that the shifts made. *)
Definition shr_loc (n : Z) (rem : Z) (mrs : shr_record) : Prop :=
  match shr_r mrs, shr_s mrs with
  | false, false => rem = 0%Z
  | false, true => (0 < rem /\ 2 * rem < 2 ^ n)%Z
  | true, false => (2 * rem = 2 ^ n)%Z
  | true, true => (2 ^ n < 2 * rem)%Z
  end.

(** Round to nearest, ties to even, of [m / 2 ^ n]. *)
Definition rne (m n : Z) : Z :=
  let q := (m / 2 ^ n)%Z in
  let rem := (m mod 2 ^ n)%Z in
  if (2 * rem <? 2 ^ n)%Z then q
  else if (2 ^ n <? 2 * rem)%Z then (q + 1)%Z
  else if Z.even q then q else (q + 1)%Z.

(** The canonical mantissa and shift of a positive integer of at least
    53 bits: the rounded quotient, renormalised when rounding carries
    into bit 53. *)
Definition canon (W : Z) : Z * Z :=
  let n := (Z.log2 W + 1 - 53)%Z in
  let q := rne W n in
  if (q =? 2 ^ 53)%Z then ((2 ^ 52)%Z, (n + 1)%Z) else (q, n).

(** The float of a canonical pair at base exponent [B]. *)
Definition mkfloat (B : Z) (c : Z * Z) : float :=
  if (B + c.2 <=? 971)%Z
  then S754_finite false (Z.to_pos c.1) (B + c.2)
  else S754_infinity false.

(** The order of canonical pairs: by shift, then by mantissa. *)
Definition canon_le (c c' : Z * Z) : Prop :=
  (c.2 < c'.2 \/ (c.2 = c'.2 /\ c.1 <= c'.1))%Z.

(** The integer a canonical pair stands for. *)
Definition canon_val (c : Z * Z) : Z := (c.1 * 2 ^ c.2)%Z.

(** The mantissa of [1.3]. *)
Definition M1_3 : Z := 5854679515581645.

(** The product with [1.3] of the float of a canonical pair at base
    exponent -104, at base exponent -156. *)
Definition times_1_3 (c : Z * Z) : float :=
  if (-104 + c.2 <=? 971)%Z
  then mkfloat (-156) (canon (canon_val c * M1_3))
  else S754_infinity false.

(** ** Sample disks and environments *)

Definition empty_disk : disk := {| prompts_file := PromptsAbsent; files := ∅ |}.

(** ASCII character classes, and no extraction library installed. *)
Definition ascii_env : environment :=
  {| cp_isupper := fun c => (65 <=? c)%N && (c <=? 90)%N;
     cp_islower := fun c => (97 <=? c)%N && (c <=? 122)%N;
     cp_istitle := fun _ => false;
     cp_isdigit := fun c => (48 <=? c)%N && (c <=? 57)%N;
     cp_decimal := fun c => if (48 <=? c)%N && (c <=? 57)%N
                            then Some (N.to_nat (c - 48)) else None;
     docx2txt_process := None;
     DocxDocument := None |}.

(** Both libraries installed; [docx2txt.process] raises. *)
Definition failing_env : environment :=
  {| cp_isupper := cp_isupper ascii_env;
     cp_islower := cp_islower ascii_env;
     cp_istitle := cp_istitle ascii_env;
     cp_isdigit := cp_isdigit ascii_env;
     cp_decimal := cp_decimal ascii_env;
     docx2txt_process := Some (fun _ => Raise LibraryError);
     DocxDocument :=
       Some (fun _ => Ok {| doc_paragraphs := []; doc_tables := [] |}) |}.

(** A prompt of 96154 words and no placeholder, stored for "CT Chest". *)
Definition long_prompt : str := str_times (py "w ") (N.to_nat 96154).

Definition disk_long_prompt : disk :=
  {| prompts_file := PromptsJson (JObj {[ py "CT Chest" := JStr long_prompt ]});
     files := ∅ |}.

(** ** The study list *)

(** [config/studies.yaml]: absent, or present with what [open] and
    [yaml.safe_load] do on it, return a value or raise.  A YAML value
    is read as the Python value it loads to; a mapping is looked up at
    the string key ["studies"] only. *)
Inductive studies_file_state :=
  | StudiesAbsent
  | StudiesFile (loaded : result json).

(** What the operating system does with the [open(..., 'w')] and the
    [yaml.dump] of the defaults: success; [open] raises; or the dump
    raises and leaves a file that loads as [leftover]. *)
Inductive yaml_write_outcome :=
  | YamlWritten
  | YamlOpenFails
  | YamlWriteFails (leftover : result json).

(** [DEFAULT_STUDIES['studies']] and [DEFAULT_STUDIES]. *)
Definition DEFAULT_STUDIES_LIST : json := JArr (map JStr DEFAULT_STUDIES).

Definition DEFAULT_STUDIES_CONFIG : json :=
  JObj {[ py "studies" := DEFAULT_STUDIES_LIST ]}.

(** The body of [def load_studies_from_yaml()]: [config.get] is inside
    the [try], the write of the defaults is not.  [yaml.dump] followed by
    [yaml.safe_load] is the identity. *)
Definition load_studies_from_yaml (f : studies_file_state)
    (io : yaml_write_outcome) : studies_file_state * result json :=
  match f with
  | StudiesFile (Ok (JObj config)) =>
      (f, Ok (default DEFAULT_STUDIES_LIST (config !! py "studies")))
  | StudiesFile (Ok _) => (f, Ok DEFAULT_STUDIES_LIST)
  | StudiesFile (Raise _) => (f, Ok DEFAULT_STUDIES_LIST)
  | StudiesAbsent =>
      match io with
      | YamlWritten => (StudiesFile (Ok DEFAULT_STUDIES_CONFIG), Ok DEFAULT_STUDIES_LIST)
      | YamlOpenFails => (StudiesAbsent, Raise OSError)
      | YamlWriteFails leftover => (StudiesFile leftover, Raise OSError)
      end
  end.

(** ** The configuration panel *)

(** The "Save Prompt" button: the warning about a missing placeholder,
    then the save; the result is the disk, whether the warning was
    shown and whether the save succeeded. *)
Definition save_prompt_button (d : disk) (config_study edited_prompt : str)
    (io : io_outcome) : result (disk * bool * bool) :=
  let warned := negb (contains PLACEHOLDER edited_prompt) in
  let* saved := save_study_prompt d config_study edited_prompt io in
  Ok (saved.1, warned, saved.2).

(** [f"reference_doc_{study_type.replace('/', '_')}.txt"], the file name
    of the "Download Document Content" button. *)
Definition reference_doc_file_name (study_type : str) : str :=
  py "reference_doc_" ++ replace study_type (py "/") (py "_") ++ py ".txt".

(** ** Session state *)

Record usage := {
  prompt_tokens : Z;
  completion_tokens : Z;
  total_tokens : Z;
}.

(** [st.session_state]: the three fields the script initialises, and
    [token_usage], present once a call has succeeded. *)
Record session := {
  impression_text : str;
  document_used : str;
  prompt_used : str;
  token_usage : option usage;
}.

(** What the request to the API and the reading of its response end in:
    the message content and the usage counters, or an exception with
    its [str(e)]. *)
Inductive api_outcome :=
  | ApiReturns (content : str) (u : usage)
  | ApiRaises (message : str).

(** The messages of the submission handler, by kind. *)
Inductive notice :=
  | NoDocumentWarning
  | TooLargeError
  | GeneratedSuccess
  | UsageInfo (u : usage)
  | FailedError (message : str)
  | ContextLengthHint.

(** The [except Exception as e:] branch of the API call. *)
Definition failure_notices (message : str) : list notice :=
  FailedError message
  :: (if contains (py "context_length_exceeded") message
      then [ContextLengthHint] else []).

(** [if submit and openai_api_key: ...] with the session state it
    writes and the messages it shows; [api] stands for
    [client.chat.completions.create] and the reading of the response.
    The session is returned also when the script raises. *)
Definition run_submission (env : environment) (d : disk)
    (api : str -> str -> api_outcome) (s : session)
    (submit : bool) (openai_api_key study_type history findings : str)
    : session * result (list notice) :=
  if submit && negb (bool_decide (openai_api_key = [])) then
    match get_study_prompt d study_type with
    | Raise e => (s, Raise e)
    | Ok study_prompt_template =>
        let doc_path := get_study_document_path study_type in
        let has_doc := path_exists d doc_path in
        let document_content :=
          if has_doc then load_document_content env d doc_path
          else NO_DOCUMENT_NOTICE in
        let shown := if has_doc then [] else [NoDocumentWarning] in
        let s1 :=
          {| impression_text := impression_text s;
             document_used := if has_doc then document_content else [];
             prompt_used := prompt_used s;
             token_usage := token_usage s |} in
        match study_prompt_template with
        | JStr template =>
            let system_prompt := replace template PLACEHOLDER document_content in
            let s2 :=
              {| impression_text := impression_text s1;
                 document_used := document_used s1;
                 prompt_used := system_prompt;
                 token_usage := token_usage s1 |} in
            if float_gt_int (count_tokens_estimate system_prompt) 120000
            then (s2, Ok (shown ++ [TooLargeError]))
            else
              match api system_prompt
                      (user_prompt_for study_type history findings) with
              | ApiReturns content u =>
                  ({| impression_text := strip content;
                      document_used := document_used s2;
                      prompt_used := prompt_used s2;
                      token_usage := Some u |},
                   Ok (shown ++ [GeneratedSuccess; UsageInfo u]))
              | ApiRaises message =>
                  (s2, Ok (shown ++ failure_notices message))
              end
        | _ => (s1, Raise AttributeError)
        end
    end
  else (s, Ok []).

(** ** The display column *)

Definition IMPRESSION_PLACEHOLDER : str :=
  py "Generated impression will appear here...".

(** The value argument of the "Editable Impression" text area:
    [st.session_state.impression_text or "Generated impression ..."]. *)
Definition text_area_value (s : session) : str :=
  match impression_text s with
  | [] => IMPRESSION_PLACEHOLDER
  | text => text
  end.

(** [if impression_area != st.session_state.impression_text: ...], on
    the content [impression_area] the text area returns. *)
Definition sync_impression (s : session) (impression_area : str) : session :=
  if bool_decide (impression_area <> impression_text s)
  then {| impression_text := impression_area;
          document_used := document_used s;
          prompt_used := prompt_used s;
          token_usage := token_usage s |}
  else s.

(** [disabled=not st.session_state.impression_text] of the export
    buttons. *)
Definition export_disabled (s : session) : bool :=
  bool_decide (impression_text s = []).

(** ** Further readings for the properties *)

(** The estimate as a function of the word count. *)
Definition estimate_of_words (n : nat) : float :=
  fmul (float_of_int (Z.of_nat n)) F1_3.

(** An environment whose character classes read the ASCII digits as
    the decimal digits they are. *)
Definition ascii_digits_decimal (env : environment) : Prop :=
  forall c : N, (48 <= c <= 57)%N ->
    cp_isdigit env c = true /\ cp_decimal env c = Some (N.to_nat (c - 48)).

(** A word: non-empty and free of whitespace. *)
Definition is_word (w : str) : Prop :=
  w <> [] /\ Forall (fun c => isspace c = false) w.

(** An environment in which the superscript two is a digit for
    [str.isdigit] but not a decimal digit for [int]. *)
Definition superscript_env : environment :=
  {| cp_isupper := cp_isupper ascii_env;
     cp_islower := cp_islower ascii_env;
     cp_istitle := cp_istitle ascii_env;
     cp_isdigit := fun c => cp_isdigit ascii_env c || (c =? 178)%N;
     cp_decimal := cp_decimal ascii_env;
     docx2txt_process := None;
     DocxDocument :=
       Some (fun _ =>
               Ok {| doc_paragraphs :=
                       [ {| para_text := py "Findings";
                            para_style_name := [72; 101; 97; 100; 105; 110; 103; 32; 178]%N;
                            para_runs := [] |} ];
                     doc_tables := [] |}) |}.

(** Both libraries installed; [docx2txt.process] returns only
    whitespace and [python-docx] reads one body paragraph. *)
Definition fallback_env : environment :=
  {| cp_isupper := cp_isupper ascii_env;
     cp_islower := cp_islower ascii_env;
     cp_istitle := cp_istitle ascii_env;
     cp_isdigit := cp_isdigit ascii_env;
     cp_decimal := cp_decimal ascii_env;
     docx2txt_process := Some (fun _ => Ok (py "  "));
     DocxDocument :=
       Some (fun _ =>
               Ok {| doc_paragraphs :=
                       [ {| para_text := py "Measure nodules.";
                            para_style_name := py "Normal";
                            para_runs := [] |} ];
                     doc_tables := [] |}) |}.

(** [docx2txt.process] returns a text with surrounding whitespace. *)
Definition docx2txt_env : environment :=
  {| cp_isupper := cp_isupper ascii_env;
     cp_islower := cp_islower ascii_env;
     cp_istitle := cp_istitle ascii_env;
     cp_isdigit := cp_isdigit ascii_env;
     cp_decimal := cp_decimal ascii_env;
     docx2txt_process := Some (fun _ => Ok (py "
  Measure nodules.  "));
     DocxDocument := None |}.

Definition empty_session : session :=
  {| impression_text := []; document_used := []; prompt_used := [];
     token_usage := None |}.

(** * Properties *)

(** ** Facts on strings *)

Lemma startswith_app (s p : str) :
  startswith s p = true <-> exists r, s = p ++ r.
Proof.
  revert s. induction p as [|a p IH]; intros s; simpl.
  - split; [intros _; by exists s | done].
  - destruct s as [|c s].
    + split; [done | intros [r Hr]; discriminate].
    + destruct (N.eqb_spec a c) as [->|Hne].
      * rewrite IH. split; intros [r Hr]; exists r; simpl in *; congruence.
      * split; [done | intros [r Hr]; simpl in Hr; congruence].
Qed.

Lemma contains_app (sub s : str) :
  contains sub s = true <-> exists a b, s = a ++ sub ++ b.
Proof.
  induction s as [|c s IH]; simpl.
  - rewrite orb_false_r, startswith_app. split.
    + intros [r Hr]. by exists [], r.
    + intros (a & b & H). destruct a; simpl in H.
      * by exists b.
      * discriminate.
  - rewrite orb_true_iff, IH, startswith_app. split.
    + intros [[r Hr]|(a & b & H)].
      * by exists [], r.
      * exists (c :: a), b. by rewrite H.
    + intros (a & b & H). destruct a as [|c' a]; simpl in H.
      * left. by exists b.
      * right. exists a, b. congruence.
Qed.

Section Replace.
Variables (h : N) (t new : str).

(** Any fuel that covers the text gives the same scan. *)
Lemma replace_loop_fuel (fuel fuel' : nat) (s : str) :
  length s <= fuel -> length s <= fuel' ->
  replace_loop fuel (h :: t) new s = replace_loop fuel' (h :: t) new s.
Proof.
  revert fuel' s. induction fuel as [|fuel IH]; intros fuel' s Hlen Hlen'.
  - destruct s; [by destruct fuel' | simpl in Hlen; lia].
  - destruct s as [|c s]; [by destruct fuel'|].
    destruct fuel' as [|fuel']; simpl in Hlen, Hlen'; [lia|].
    cbn [replace_loop].
    destruct (startswith (c :: s) (h :: t)).
    + f_equal. apply IH; rewrite length_drop; simpl; lia.
    + f_equal. apply IH; lia.
Qed.

Lemma replace_match (r : str) :
  replace ((h :: t) ++ r) (h :: t) new = new ++ replace r (h :: t) new.
Proof.
  unfold replace. cbn [app length replace_loop].
  assert (Hsw : startswith (h :: t ++ r) (h :: t) = true)
    by (apply startswith_app; by exists r).
  rewrite Hsw. f_equal. cbn [length drop].
  rewrite drop_app_length. apply replace_loop_fuel; [|done].
  rewrite length_app. lia.
Qed.

Lemma replace_skip (c : N) (s : str) :
  startswith (c :: s) (h :: t) = false ->
  replace (c :: s) (h :: t) new = c :: replace s (h :: t) new.
Proof.
  intros Hsw. unfold replace in *. cbn [length replace_loop].
  by rewrite Hsw.
Qed.

(** Without an occurrence of the pattern nothing changes. *)
Lemma replace_absent (s : str) :
  contains (h :: t) s = false -> replace s (h :: t) new = s.
Proof.
  induction s as [|c s IH]; [done|].
  cbn [contains]. intros [Hsw Hin]%orb_false_elim.
  rewrite replace_skip by done. f_equal. by apply IH.
Qed.

(** A pattern whose first character does not occur again in it cannot
    overlap itself, and then every occurrence is replaced, whatever
    stands before it. *)
Hypothesis head_once : h ∉ t.

Lemma no_overlap (a b r : str) :
  a ++ (h :: t) ++ b = (h :: t) ++ r -> a = [] \/ length (h :: t) <= length a.
Proof.
  intros Heq. destruct a as [|c a]; [by left | right].
  destruct (decide (length (h :: t) <= length (c :: a))) as [|Hlt]; [done|].
  exfalso. apply head_once.
  assert (Hl : ((h :: t) ++ r) !! length (c :: a) = Some h).
  { rewrite <- Heq. rewrite lookup_app_r by lia.
    by rewrite Nat.sub_diag. }
  rewrite lookup_app_l in Hl by lia.
  simpl in Hl. eapply list_elem_of_lookup_2. exact Hl.
Qed.

Lemma replace_app_occurrence (a b : str) :
  replace (a ++ (h :: t) ++ b) (h :: t) new
  = replace a (h :: t) new ++ new ++ replace b (h :: t) new.
Proof.
  remember (length a) as n eqn:Hn. revert a Hn.
  induction n as [n IH] using lt_wf_ind. intros a ->.
  destruct a as [|c a].
  - rewrite app_nil_l. by rewrite replace_match.
  - destruct (startswith ((c :: a) ++ (h :: t) ++ b) (h :: t)) eqn:Hsw.
    + apply startswith_app in Hsw as [r Hr].
      destruct (no_overlap _ _ _ Hr) as [|Hlen]; [done|].
      assert (Ha : exists a', c :: a = (h :: t) ++ a').
      { exists (drop (length (h :: t)) (c :: a)).
        rewrite <- (take_drop (length (h :: t)) (c :: a)) at 1. f_equal.
        apply (f_equal (take (length (h :: t)))) in Hr.
        rewrite take_app_le in Hr by done.
        by rewrite take_app_length in Hr. }
      destruct Ha as [a' Ha]. rewrite Ha, <- app_assoc, !replace_match.
      rewrite <- app_assoc. f_equal.
      eapply IH; [|done]. rewrite Ha, length_app. simpl. lia.
    + assert (Hsw' : startswith (c :: a) (h :: t) = false).
      { destruct (startswith (c :: a) (h :: t)) eqn:E; [|done].
        apply startswith_app in E as [r Hr].
        assert (startswith ((c :: a) ++ (h :: t) ++ b) (h :: t) = true);
          [|congruence].
        apply startswith_app. exists (r ++ (h :: t) ++ b).
        by rewrite Hr, <- app_assoc. }
      rewrite <- (app_comm_cons a ((h :: t) ++ b) c), replace_skip by done.
      rewrite (replace_skip c a) by done.
      rewrite <- (app_comm_cons (replace a (h :: t) new) _ c). f_equal.
      eapply IH; [|done]. simpl. lia.
Qed.

(** The [join] reading of [replace]: between segments that hold no
    occurrence, every separator is exchanged. *)
Lemma replace_join_segments (segments : list str) :
  Forall (fun seg => contains (h :: t) seg = false) segments ->
  replace (join (h :: t) segments) (h :: t) new = join new segments.
Proof.
  intros Hsegs. induction Hsegs as [|seg rest Hseg Hrest IH]; [done|].
  destruct rest as [|seg' rest].
  - cbn [join]. by apply replace_absent.
  - change (join (h :: t) (seg :: seg' :: rest))
      with (seg ++ (h :: t) ++ join (h :: t) (seg' :: rest)).
    change (join new (seg :: seg' :: rest))
      with (seg ++ new ++ join new (seg' :: rest)).
    by rewrite replace_app_occurrence, IH, (replace_absent seg Hseg).
Qed.

End Replace.

Lemma join_empty_separator (parts : list str) : join [] parts = concat parts.
Proof.
  induction parts as [|p [|q rest] IH]; [done| |].
  - cbn [join concat]. by rewrite app_nil_r.
  - change (join [] (p :: q :: rest)) with (p ++ [] ++ join [] (q :: rest)).
    by rewrite IH.
Qed.

Lemma placeholder_head_once : 123%N ∉ py "document_content}".
Proof.
  vm_compute. intros H.
  repeat (apply elem_of_cons in H as [H|H]; [discriminate|]).
  by apply elem_of_nil in H.
Qed.

(** ** Prompt assembly *)

(** C1. For every template and every document text, [assemble] is the
    literal replacement of the placeholder token: a template without an
    occurrence of ["{document_content}"] comes back unchanged; and
    whenever the template reads [before ++ token ++ after], the result
    is the assembled [before], the document text, and the assembled
    [after], so that every occurrence is replaced.  On the template
    ["Rules: {document_content} End."] and the document
    ["Measure nodules >6mm."] the result is
    ["Rules: Measure nodules >6mm. End."]. *)
Theorem assemble_replaces_placeholder (template document_content : str) :
  (contains PLACEHOLDER template = false ->
   assemble template document_content = template)
  /\ (forall before after : str,
        template = before ++ PLACEHOLDER ++ after ->
        assemble template document_content
        = assemble before document_content ++ document_content
            ++ assemble after document_content)
  /\ assemble (py "Rules: {document_content} End.") (py "Measure nodules >6mm.")
     = py "Rules: Measure nodules >6mm. End.".
Proof.
  split; [|split].
  - apply (replace_absent 123 (py "document_content}")).
  - intros before after ->.
    apply (replace_app_occurrence 123 (py "document_content}")),
      placeholder_head_once.
  - reflexivity.
Qed.

Lemma assemble_replaces_placeholder_witness :
  assemble (py "No token here.") (py "6mm") = py "No token here."
  /\ assemble (py "A {document_content} B {document_content}") (py "6mm")
     = assemble (py "A ") (py "6mm") ++ py "6mm"
         ++ assemble (py " B {document_content}") (py "6mm").
Proof.
  split.
  - apply (assemble_replaces_placeholder (py "No token here.") (py "6mm")).
    reflexivity.
  - apply (assemble_replaces_placeholder
             (py "A {document_content} B {document_content}") (py "6mm")).
    reflexivity.
Defined.

(** ** The prompt store *)

(** Where the record file gives no entry and is absent, unloadable or a
    mapping, the default template comes back. *)
Lemma get_study_prompt_default (d : disk) (study_name : str) :
  no_prompt_entry d study_name ->
  get_study_prompt d study_name = Ok (JStr DEFAULT_PROMPT).
Proof.
  unfold get_study_prompt, load_study_prompts.
  intros [-> | [-> | (prompts & -> & Hnone)]].
  - by rewrite lookup_empty.
  - by rewrite lookup_empty.
  - by rewrite Hnone.
Qed.

(** C7, on the code.  A record file that holds the JSON array [[]]
    has no entry for any study, and [get_study_prompt] raises
    [AttributeError] there in place of returning the default template;
    so it does on every record file that loads to something other than
    a mapping.  On an absent or unloadable file and on a mapping
    without the study's key it returns the default template itself;
    and [load_studies_from_yaml], whose [.get] is inside its [try],
    falls back to its defaults on the same array. *)
Theorem get_study_prompt_non_mapping (study_name : str) :
  get_study_prompt {| prompts_file := PromptsJson (JArr []); files := ∅ |}
    study_name
  = Raise AttributeError
  /\ (forall (d : disk) (v : json),
        prompts_file d = PromptsJson v ->
        (forall prompts : gmap (list N) json, v <> JObj prompts) ->
        get_study_prompt d study_name = Raise AttributeError)
  /\ (forall d : disk,
        no_prompt_entry d study_name ->
        get_study_prompt d study_name = Ok (JStr DEFAULT_PROMPT))
  /\ (forall io : yaml_write_outcome,
        load_studies_from_yaml (StudiesFile (Ok (JArr []))) io
        = (StudiesFile (Ok (JArr [])), Ok DEFAULT_STUDIES_LIST)).
Proof.
  split; [reflexivity|]. split; [|split].
  - intros d v Hfile Hv. unfold get_study_prompt, load_study_prompts.
    rewrite Hfile. destruct v; try done. by destruct (Hv members).
  - intros d. apply get_study_prompt_default.
  - reflexivity.
Qed.

Lemma get_study_prompt_non_mapping_witness :
  get_study_prompt
    {| prompts_file := PromptsJson (JStr (py "CT Chest")); files := ∅ |}
    (py "CT Chest")
  = Raise AttributeError
  /\ get_study_prompt
       {| prompts_file :=
            PromptsJson (JObj {[ py "MRI Brain" := JStr (py "Custom") ]});
          files := ∅ |}
       (py "CT Chest")
     = Ok (JStr DEFAULT_PROMPT).
Proof.
  destruct (get_study_prompt_non_mapping (py "CT Chest")) as (_ & Hraise & Hdef & _).
  split.
  - apply (Hraise _ (JStr (py "CT Chest"))); [reflexivity | discriminate].
  - apply Hdef. right. right.
    eexists. split; [reflexivity|]. by vm_compute.
Defined.

(** C8. After a save of template [prompt] for study [study_name] that
    reports success, [get_study_prompt] returns [prompt] for that study
    and, for every other study, what it returned before the save. *)
Theorem save_study_prompt_frame (d d' : disk) (study_name prompt : str)
    (io : io_outcome) :
  save_study_prompt d study_name prompt io = Ok (d', true) ->
  get_study_prompt d' study_name = Ok (JStr prompt)
  /\ forall other : str,
       other <> study_name ->
       get_study_prompt d' other = get_study_prompt d other.
Proof.
  unfold save_study_prompt, get_study_prompt.
  destruct (load_study_prompts d) as [| | | | |prompts] eqn:Hload; try done.
  destruct io; intros [= <-]; try done.
  unfold load_study_prompts. cbn [prompts_file].
  split.
  - by rewrite lookup_insert_eq.
  - intros other Hne. by rewrite lookup_insert_ne.
Qed.

Lemma save_study_prompt_frame_witness :
  let d := {| prompts_file :=
                PromptsJson (JObj {[ py "MRI Brain" := JStr (py "Custom") ]});
              files := ∅ |} in
  let d' := {| prompts_file :=
                 PromptsJson
                   (JObj (<[ py "CT Chest" := JStr (py "Use {document_content}") ]>
                            {[ py "MRI Brain" := JStr (py "Custom") ]}));
               files := ∅ |} in
  get_study_prompt d' (py "CT Chest") = Ok (JStr (py "Use {document_content}"))
  /\ forall other : str,
       other <> py "CT Chest" ->
       get_study_prompt d' other = get_study_prompt d other.
Proof.
  intros d d'.
  apply (save_study_prompt_frame d d' (py "CT Chest")
           (py "Use {document_content}") IoOk).
  reflexivity.
Defined.

(** ** The document store *)

(** C9. For every study, after a document save that reports success the
    existence check on the study's document path is true, and after a
    removal that succeeds it is false. *)
Theorem document_save_remove_exists (study_name : str) :
  (forall (d d' : disk) (buffer : list byte) (io : io_outcome),
     save_study_document d study_name buffer io = (d', true) ->
     path_exists d' (get_study_document_path study_name) = true)
  /\ (forall (d d' : disk) (permitted : bool),
        remove_document d study_name permitted = (d', true) ->
        path_exists d' (get_study_document_path study_name) = false).
Proof.
  split.
  - intros d d' buffer io. unfold save_study_document.
    destruct io; intros [= <-]. unfold path_exists. cbn [files].
    apply bool_decide_eq_true. rewrite lookup_insert_eq. by eexists.
  - intros d d' permitted. unfold remove_document, unlink.
    destruct (path_exists d _); [|done].
    destruct permitted; intros [= <-]. unfold path_exists. cbn [files].
    apply bool_decide_eq_false. rewrite lookup_delete_eq. by intros [? ?].
Qed.

Lemma document_save_remove_exists_witness :
  let p := get_study_document_path (py "CT Chest") in
  let d1 := fst (save_study_document empty_disk (py "CT Chest") [x50; x4b] IoOk) in
  let d2 := fst (remove_document d1 (py "CT Chest") true) in
  path_exists empty_disk p = false
  /\ path_exists d1 p = true
  /\ path_exists d2 p = false.
Proof.
  intros p d1 d2.
  destruct (document_save_remove_exists (py "CT Chest")) as [Hsave Hremove].
  split; [by vm_compute|]. split.
  - apply (Hsave empty_disk d1 [x50; x4b] IoOk). reflexivity.
  - apply (Hremove d1 d2 true). by vm_compute.
Defined.

Lemma replace_char (x y : N) (s : str) :
  replace s [x] [y] = map (fun c => if (x =? c)%N then y else c) s.
Proof.
  induction s as [|c s IH]; [done|].
  cbn [map]. destruct (N.eqb_spec x c) as [->|Hne].
  - change (c :: s) with ([c] ++ s). rewrite replace_match. by rewrite IH.
  - rewrite replace_skip.
    + by rewrite IH.
    + simpl. by apply N.eqb_neq in Hne as ->.
Qed.

Lemma safe_name_map (study_name : str) :
  safe_name study_name = map sanitize_char study_name.
Proof.
  unfold safe_name. change (py "/") with [47%N]. change (py " ") with [32%N].
  change (py "_") with [95%N]. rewrite !replace_char, map_map.
  apply map_ext. intros c. unfold sanitize_char.
  rewrite (N.eqb_sym c 47), (N.eqb_sym c 32).
  destruct (47 =? c)%N eqn:H47; [done|].
  by destruct (32 =? c)%N eqn:H32.
Qed.

(** Two distinct study names with one document path. *)
Lemma document_path_collision :
  py "CT/Chest" <> py "CT Chest"
  /\ get_study_document_path (py "CT/Chest")
     = get_study_document_path (py "CT Chest").
Proof. split; [discriminate | reflexivity]. Qed.

(** C4, as the code has it.  Two study names have the same document
    path exactly when they are equal once every ['/'] and every [' ']
    is read as ['_']; the path is injective on the names that hold
    neither ['/'] nor [' ']; and the default study names have pairwise
    distinct paths. *)
Theorem document_path_collides_iff :
  (forall a b : str,
     get_study_document_path a = get_study_document_path b
     <-> map sanitize_char a = map sanitize_char b)
  /\ (forall a b : str,
        Forall (fun c => c <> 47%N /\ c <> 32%N) a ->
        Forall (fun c => c <> 47%N /\ c <> 32%N) b ->
        get_study_document_path a = get_study_document_path b -> a = b)
  /\ NoDup (map get_study_document_path DEFAULT_STUDIES).
Proof.
  assert (Hiff : forall a b : str,
     get_study_document_path a = get_study_document_path b
     <-> map sanitize_char a = map sanitize_char b).
  { intros a b. unfold get_study_document_path. rewrite !safe_name_map. split.
    - intros H. apply app_inv_head in H. apply app_inv_head in H.
      by apply app_inv_tail in H.
    - by intros ->. }
  assert (Hid : forall a : str,
     Forall (fun c => c <> 47%N /\ c <> 32%N) a -> map sanitize_char a = a).
  { intros a Ha. induction Ha as [|c a [H1 H2] _ IH]; [done|].
    cbn [map]. rewrite IH. f_equal. unfold sanitize_char.
    apply N.eqb_neq in H1, H2. by rewrite H1, H2. }
  split; [exact Hiff|]. split.
  - intros a b Ha Hb H%Hiff. by rewrite (Hid a Ha), (Hid b Hb) in H.
  - refine (bool_decide_unpack _ _). by vm_compute.
Qed.

Lemma document_path_collides_iff_witness :
  get_study_document_path (py "CT/Chest")
  = get_study_document_path (py "CT_Chest")
  /\ py "MRCP" = py "MRCP".
Proof.
  destruct document_path_collides_iff as (Hiff & Hinj & _). split.
  - apply Hiff. reflexivity.
  - apply Hinj; [repeat constructor; discriminate .. | reflexivity].
Defined.

(** ** Table rows of the extraction fallback *)

Lemma join_nil_inv (sep : str) (parts : list str) :
  sep <> [] -> join sep parts = [] -> parts = [] \/ parts = [ [] ].
Proof.
  intros Hsep. destruct parts as [|p [|q rest]]; cbn [join].
  - by left.
  - intros ->. by right.
  - intros H. apply app_eq_nil in H as [_ H]. by apply app_eq_nil in H as [H _].
Qed.

(** C5, on the code.  A row of two blank cells is not skipped: it is
    rendered as the bare delimiter [" | "], also within the table
    section.  The rows that are skipped are exactly those without a
    cell and those of a single blank cell; a row with a non-blank cell
    is rendered as its stripped cells joined by [" | "]. *)
Theorem blank_row_not_skipped :
  row_lines [ []; [] ] = [ py " | " ]
  /\ tables_section [ [ [py "Size"; py "Action"]; [ []; py "  " ] ] ]
     = [ []; str_times (py "=") 80; py "TABLES FROM DOCUMENT";
         str_times (py "=") 80; py "
[Table 1]"; py "Size | Action"; py " | "; [] ]
  /\ (forall cells : list str,
        row_lines cells = []
        <-> cells = [] \/ exists c, cells = [c] /\ strip c = [])
  /\ (forall cells : list str,
        Exists (fun c => strip c <> []) cells ->
        row_lines cells = [ join (py " | ") (map strip cells) ]).
Proof.
  assert (Hskip : forall cells : list str,
        row_lines cells = []
        <-> cells = [] \/ exists c, cells = [c] /\ strip c = []).
  { intros cells. unfold row_lines. split.
    - destruct (row_text cells) eqn:Hrow; [|done]. intros _.
      apply join_nil_inv in Hrow as [H|H]; [| |done].
      + apply map_eq_nil in H. by left.
      + right. destruct cells as [|c [|? ?]]; try done.
        exists c. split; [done|]. by injection H.
    - intros [->|(c & -> & Hc)]; [done|].
      unfold row_text. cbn [map join]. by rewrite Hc. }
  split; [reflexivity|]. split; [reflexivity|]. split; [exact Hskip|].
  intros cells Hex. unfold row_lines.
  destruct (row_text cells) eqn:Hrow; [|by rewrite <- Hrow].
  exfalso.
  assert (H : row_lines cells = []) by (unfold row_lines; by rewrite Hrow).
  apply Hskip in H as [->|(c & -> & Hc)].
  - by apply Exists_nil in Hex.
  - apply Exists_cons in Hex as [Hex|Hex]; [done | by apply Exists_nil in Hex].
Qed.

Lemma blank_row_not_skipped_witness :
  row_lines [ py " 6 mm "; [] ] = [ py "6 mm | " ].
Proof.
  destruct blank_row_not_skipped as (_ & _ & _ & H).
  rewrite H; [reflexivity|]. apply Exists_cons_hd. by vm_compute.
Defined.

(** ** The submission handler *)

Lemma path_exists_lookup (d : disk) (file_path : str) :
  path_exists d file_path = true <-> is_Some (files d !! file_path).
Proof. unfold path_exists. apply bool_decide_eq_true. Qed.

(** C3. When the selected study has no custom prompt and no document
    file on disk, a submission with an API key calls the API, and the
    system prompt is the default template with ["{document_content}"]
    replaced by the literal
    ["No reference document available for this study type."]: the text
    written out below. *)
Theorem default_prompt_with_notice (env : environment) (d : disk)
    (openai_api_key study_type history findings : str) :
  get_study_prompt d study_type = Ok (JStr DEFAULT_PROMPT) ->
  path_exists d (get_study_document_path study_type) = false ->
  openai_api_key <> [] ->
  submission_handler env d true openai_api_key study_type history findings
  = Ok (ApiCall (py
"You are an expert radiologist creating a concise radiology impression section following RCR 2018 standards.

CRITICAL INSTRUCTIONS:
1. You MUST follow ALL steps, protocols, and guidelines mentioned in the REFERENCE DOCUMENT below
2. Read the ENTIRE reference document carefully before generating the impression
3. Apply every relevant checklist, measurement standard, and reporting requirement from the document
4. If the document specifies a structure or format, follow it exactly
5. If the document mentions specific terminology or classifications, use them

Generate the impression as exactly 3-4 bullet points:
- Summarize key findings following document protocols
- State primary diagnosis or differential as per document guidelines
- Include any measurements or specifics required by the document

Use clear, standardized terminology as specified in the reference document.

---REFERENCE DOCUMENT START---
No reference document available for this study type.
---REFERENCE DOCUMENT END---

Now generate the impression following ALL guidelines above.")
          (user_prompt_for study_type history findings)).
Proof.
  intros Hget Hpath Hkey. unfold submission_handler.
  rewrite bool_decide_eq_false_2 by done. cbn [andb negb].
  unfold system_prompt_for, document_content_for. rewrite Hget, Hpath.
  cbn [bind]. unfold token_gate.
  replace (float_gt_int
             (count_tokens_estimate (assemble DEFAULT_PROMPT NO_DOCUMENT_NOTICE))
             120000)
    with false by (by vm_compute).
  by vm_compute.
Qed.

Lemma default_prompt_with_notice_witness :
  submission_handler ascii_env empty_disk true (py "sk-test") (py "CT Chest") []
    (py "6 mm nodule")
  = Ok (ApiCall (py
"You are an expert radiologist creating a concise radiology impression section following RCR 2018 standards.

CRITICAL INSTRUCTIONS:
1. You MUST follow ALL steps, protocols, and guidelines mentioned in the REFERENCE DOCUMENT below
2. Read the ENTIRE reference document carefully before generating the impression
3. Apply every relevant checklist, measurement standard, and reporting requirement from the document
4. If the document specifies a structure or format, follow it exactly
5. If the document mentions specific terminology or classifications, use them

Generate the impression as exactly 3-4 bullet points:
- Summarize key findings following document protocols
- State primary diagnosis or differential as per document guidelines
- Include any measurements or specifics required by the document

Use clear, standardized terminology as specified in the reference document.

---REFERENCE DOCUMENT START---
No reference document available for this study type.
---REFERENCE DOCUMENT END---

Now generate the impression following ALL guidelines above.")
          (py "
Study Type: CT Chest
Clinical History: Not provided
Key Findings: 6 mm nodule

Following ALL protocols and guidelines in the reference document above, generate a concise impression in 3-4 bullet points.")).
Proof.
  apply (default_prompt_with_notice ascii_env empty_disk (py "sk-test")
           (py "CT Chest") [] (py "6 mm nodule")).
  - reflexivity.
  - by vm_compute.
  - discriminate.
Defined.

(** C10. If the document file of the selected study exists and its
    extraction raises or yields the empty text, the document text is
    empty and is not the notice
    ["No reference document available for this study type."], and the
    system prompt is the template with every ["{document_content}"]
    replaced by the empty string: a template read as segments joined by
    the token gives the segments one after the other, a template
    without the token gives itself, and the default template gives the
    text written out below, with an empty line between the two
    reference marks. *)
Theorem failed_extraction_gives_empty_document (env : environment) (d : disk)
    (study_type template : str) (bytes : list byte) :
  get_study_prompt d study_type = Ok (JStr template) ->
  files d !! get_study_document_path study_type = Some bytes ->
  (exists e, load_document_try env bytes = Raise e)
  \/ load_document_try env bytes = Ok [] ->
  document_content_for env d study_type = []
  /\ document_content_for env d study_type
     <> py "No reference document available for this study type."
  /\ (forall segments : list str,
        Forall (fun seg => contains (py "{document_content}") seg = false)
          segments ->
        template = join (py "{document_content}") segments ->
        system_prompt_for env d study_type = Ok (concat segments))
  /\ (contains (py "{document_content}") template = false ->
      system_prompt_for env d study_type = Ok template)
  /\ (template = DEFAULT_PROMPT ->
      system_prompt_for env d study_type = Ok (py
"You are an expert radiologist creating a concise radiology impression section following RCR 2018 standards.

CRITICAL INSTRUCTIONS:
1. You MUST follow ALL steps, protocols, and guidelines mentioned in the REFERENCE DOCUMENT below
2. Read the ENTIRE reference document carefully before generating the impression
3. Apply every relevant checklist, measurement standard, and reporting requirement from the document
4. If the document specifies a structure or format, follow it exactly
5. If the document mentions specific terminology or classifications, use them

Generate the impression as exactly 3-4 bullet points:
- Summarize key findings following document protocols
- State primary diagnosis or differential as per document guidelines
- Include any measurements or specifics required by the document

Use clear, standardized terminology as specified in the reference document.

---REFERENCE DOCUMENT START---

---REFERENCE DOCUMENT END---

Now generate the impression following ALL guidelines above.")).
Proof.
  intros Hget Hfile Hfail.
  assert (Hdoc : document_content_for env d study_type = []).
  { unfold document_content_for.
    rewrite (proj2 (path_exists_lookup d _)) by (rewrite Hfile; by eexists).
    unfold load_document_content. rewrite Hfile.
    by destruct Hfail as [[e ->] | ->]. }
  assert (Hsys : system_prompt_for env d study_type
                 = Ok (replace template (py "{document_content}") [])).
  { unfold system_prompt_for. rewrite Hget. cbn [bind]. by rewrite Hdoc. }
  split; [exact Hdoc|]. split; [by rewrite Hdoc|]. rewrite Hsys.
  split; [|split].
  - intros segments Hsegs ->. f_equal.
    change (py "{document_content}") with (123%N :: py "document_content}") in *.
    rewrite replace_join_segments by (exact placeholder_head_once || done).
    apply join_empty_separator.
  - intros Habsent. f_equal.
    by apply (replace_absent 123 (py "document_content}")).
  - intros ->. by vm_compute.
Qed.

Lemma failed_extraction_gives_empty_document_witness :
  let d := fst (save_study_document empty_disk (py "CT Chest") [x00] IoOk) in
  document_content_for failing_env d (py "CT Chest") = []
  /\ system_prompt_for failing_env d (py "CT Chest") = Ok (py
"You are an expert radiologist creating a concise radiology impression section following RCR 2018 standards.

CRITICAL INSTRUCTIONS:
1. You MUST follow ALL steps, protocols, and guidelines mentioned in the REFERENCE DOCUMENT below
2. Read the ENTIRE reference document carefully before generating the impression
3. Apply every relevant checklist, measurement standard, and reporting requirement from the document
4. If the document specifies a structure or format, follow it exactly
5. If the document mentions specific terminology or classifications, use them

Generate the impression as exactly 3-4 bullet points:
- Summarize key findings following document protocols
- State primary diagnosis or differential as per document guidelines
- Include any measurements or specifics required by the document

Use clear, standardized terminology as specified in the reference document.

---REFERENCE DOCUMENT START---

---REFERENCE DOCUMENT END---

Now generate the impression following ALL guidelines above.").
Proof.
  intros d.
  destruct (failed_extraction_gives_empty_document failing_env d (py "CT Chest")
              DEFAULT_PROMPT [x00]) as (Hdoc & _ & _ & _ & Hsys).
  - reflexivity.
  - by vm_compute.
  - left. by exists LibraryError.
  - split; [exact Hdoc|]. by apply Hsys.
Defined.

(** ** Binary64 rounding *)

Section Binary64.
#[local] Open Scope Z_scope.

Lemma digits2_pos_size (p : positive) : digits2_pos p = Pos.size p.
Proof. induction p; simpl; congruence. Qed.

Lemma digits2_log2 (p : positive) :
  Z.pos (digits2_pos p) = Z.log2 (Z.pos p) + 1.
Proof.
  rewrite digits2_pos_size. destruct p as [p|p|]; simpl; try lia.
Qed.

Lemma digits2_bounds (p : positive) :
  2 ^ (Z.pos (digits2_pos p) - 1) <= Z.pos p < 2 ^ Z.pos (digits2_pos p).
Proof.
  rewrite digits2_log2.
  pose proof (Z.log2_spec (Z.pos p) ltac:(lia)) as H.
  replace (Z.log2 (Z.pos p) + 1 - 1) with (Z.log2 (Z.pos p)) by lia.
  replace (Z.log2 (Z.pos p) + 1) with (Z.succ (Z.log2 (Z.pos p))) by lia.
  exact H.
Qed.

(** [iter_pos] is iteration. *)
Lemma iter_pos_nat {A : Type} (f : A -> A) (p : positive) (x : A) :
  SpecFloat.iter_pos f p x = Nat.iter (Pos.to_nat p) f x.
Proof.
  revert x. induction p as [p IH|p IH|]; intros x; cbn [SpecFloat.iter_pos].
  - rewrite !IH, Pos2Nat.inj_xI.
    replace (S (2 * Pos.to_nat p)) with (Pos.to_nat p + (Pos.to_nat p + 1))%nat by lia.
    rewrite !Nat.iter_add. simpl. done.
  - rewrite !IH, Pos2Nat.inj_xO.
    replace (2 * Pos.to_nat p)%nat with (Pos.to_nat p + Pos.to_nat p)%nat by lia.
    by rewrite Nat.iter_add.
  - done.
Qed.

Lemma shr_1_arith (mrs : shr_record) :
  0 <= shr_m mrs ->
  shr_m (shr_1 mrs) = shr_m mrs / 2
  /\ shr_r (shr_1 mrs) = Z.odd (shr_m mrs)
  /\ shr_s (shr_1 mrs) = shr_r mrs || shr_s mrs.
Proof.
  destruct mrs as [m r s]. cbn [shr_m shr_r shr_s]. intros Hm.
  destruct m as [|p|p]; [done| |lia].
  destruct p as [p|p|]; cbn [shr_1 shr_m shr_r shr_s].
  - split; [|done]. rewrite Pos2Z.inj_xI.
    apply (Z.div_unique _ 2 _ 1); lia.
  - split; [|done]. rewrite Pos2Z.inj_xO.
    apply (Z.div_unique _ 2 _ 0); lia.
  - done.
Qed.

Lemma shr_iter (m : Z) (n : nat) :
  0 <= m ->
  let mrs := Nat.iter n shr_1 {| shr_m := m; shr_r := false; shr_s := false |} in
  shr_m mrs = m / 2 ^ Z.of_nat n
  /\ shr_loc (Z.of_nat n) (m mod 2 ^ Z.of_nat n) mrs.
Proof.
  intros Hm. cbv zeta. induction n as [|n IH].
  - simpl. rewrite Z.div_1_r, Z.mod_1_r. done.
  - rewrite Nat.iter_succ.
    set (mrs := Nat.iter n shr_1 _) in *. destruct IH as [Hq Hloc].
    assert (Hpow : 0 < 2 ^ Z.of_nat n) by (apply Z.pow_pos_nonneg; lia).
    assert (Hq0 : 0 <= shr_m mrs) by (rewrite Hq; apply Z.div_pos; lia).
    destruct (shr_1_arith mrs Hq0) as (H1 & H2 & H3).
    rewrite Nat2Z.inj_succ, Z.pow_succ_r by lia.
    pose proof (Z.div_mod m (2 ^ Z.of_nat n) ltac:(lia)) as Hdm.
    pose proof (Z.mod_pos_bound m (2 ^ Z.of_nat n) Hpow) as Hr.
    pose proof (Z.div_mod (m / 2 ^ Z.of_nat n) 2 ltac:(lia)) as Hdm2.
    pose proof (Z.mod_pos_bound (m / 2 ^ Z.of_nat n) 2 ltac:(lia)) as Hr2.
    set (q := m / 2 ^ Z.of_nat n) in *. set (r := m mod 2 ^ Z.of_nat n) in *.
    set (P := 2 ^ Z.of_nat n) in *.
    assert (Hdiv : m / (2 * P) = q / 2).
    { symmetry. apply (Z.div_unique _ _ _ ((q mod 2) * P + r)); nia. }
    assert (Hmod : m mod (2 * P) = (q mod 2) * P + r).
    { symmetry. apply (Z.mod_unique _ _ (q / 2)); nia. }
    split; [by rewrite H1, Hq, Hdiv|].
    rewrite Hmod. unfold shr_loc in *. rewrite H2, H3, Hq.
    rewrite Z.pow_succ_r by lia. fold P.
    rewrite Zodd_mod.
    destruct (Z.eqb_spec (q mod 2) 1) as [E|E].
    + rewrite E, Z.mul_1_l.
      destruct (shr_r mrs), (shr_s mrs); cbn [orb]; lia.
    + replace (q mod 2) with 0 by lia. rewrite Z.mul_0_l.
      destruct (shr_r mrs), (shr_s mrs); cbn [orb]; lia.
Qed.

Lemma round_nearest_even_rne (m n : Z) (mrs : shr_record) :
  0 <= n ->
  shr_m mrs = m / 2 ^ n -> shr_loc n (m mod 2 ^ n) mrs ->
  round_nearest_even (shr_m mrs) (loc_of_shr_record mrs) = rne m n.
Proof.
  intros Hn Hq Hloc. unfold rne. rewrite <- Hq.
  assert (0 < 2 ^ n) by (apply Z.pow_pos_nonneg; lia).
  pose proof (Z.mod_pos_bound m (2 ^ n) ltac:(lia)).
  destruct mrs as [q [|] [|]]; unfold shr_loc in Hloc;
    cbn [shr_m shr_r shr_s loc_of_shr_record round_nearest_even] in *.
  - destruct (Z.ltb_spec (2 * (m mod 2 ^ n)) (2 ^ n)); [lia|].
    destruct (Z.ltb_spec (2 ^ n) (2 * (m mod 2 ^ n))); [done|lia].
  - destruct (Z.ltb_spec (2 * (m mod 2 ^ n)) (2 ^ n)); [lia|].
    destruct (Z.ltb_spec (2 ^ n) (2 * (m mod 2 ^ n))); [lia|done].
  - destruct (Z.ltb_spec (2 * (m mod 2 ^ n)) (2 ^ n)); [done|lia].
  - destruct (Z.ltb_spec (2 * (m mod 2 ^ n)) (2 ^ n)); [done|lia].
Qed.

Lemma Zdigits2_log2 (z : Z) : 0 < z -> Zdigits2 z = Z.log2 z + 1.
Proof. destruct z as [|p|p]; try lia. intros _. apply digits2_log2. Qed.

Lemma fexp_normal (e : Z) :
  -1074 <= e - 53 -> fexp prec emax e = e - 53.
Proof. unfold fexp, SpecFloat.emin, prec, emax. lia. Qed.

Lemma shr_exact (m e n : Z) :
  0 <= m -> 0 <= n ->
  let '(mrs, e') := shr {| shr_m := m; shr_r := false; shr_s := false |} e n in
  e' = e + n
  /\ round_nearest_even (shr_m mrs) (loc_of_shr_record mrs) = rne m n.
Proof.
  intros Hm Hn. destruct n as [|pn|pn]; [| |lia]; cbn [shr].
  - split; [lia|]. unfold rne. cbn [shr_m loc_of_shr_record round_nearest_even].
    rewrite Z.pow_0_r, Z.div_1_r, Z.mod_1_r. done.
  - split; [done|]. rewrite iter_pos_nat.
    pose proof (shr_iter m (Pos.to_nat pn) Hm) as H. cbv zeta in H.
    rewrite positive_nat_Z in H. destruct H as [Hq Hloc].
    by apply round_nearest_even_rne.
Qed.

(** The bounds of a rounded mantissa. *)
Lemma rne_bounds (m n : Z) :
  0 <= n -> 0 <= m ->
  m / 2 ^ n <= rne m n <= m / 2 ^ n + 1.
Proof.
  intros Hn Hm. unfold rne.
  repeat match goal with |- context [if ?b then _ else _] => destruct b end; lia.
Qed.

Lemma rne_mono (m m' n : Z) :
  0 <= n -> 0 <= m <= m' -> rne m n <= rne m' n.
Proof.
  intros Hn Hm.
  assert (HP : 0 < 2 ^ n) by (apply Z.pow_pos_nonneg; lia).
  pose proof (Z.div_mod m (2 ^ n) ltac:(lia)) as Hdm.
  pose proof (Z.mod_pos_bound m (2 ^ n) HP) as Hr.
  pose proof (Z.div_mod m' (2 ^ n) ltac:(lia)) as Hdm'.
  pose proof (Z.mod_pos_bound m' (2 ^ n) HP) as Hr'.
  assert (Hq : m / 2 ^ n <= m' / 2 ^ n) by (apply Z.div_le_mono; lia).
  unfold rne.
  set (q := m / 2 ^ n) in *. set (r := m mod 2 ^ n) in *.
  set (q' := m' / 2 ^ n) in *. set (r' := m' mod 2 ^ n) in *.
  set (P := 2 ^ n) in *.
  destruct (Z.eq_dec q q') as [Heq|Hne].
  - rewrite <- Heq in *. assert (r <= r') by nia.
    destruct (Z.ltb_spec (2 * r) P), (Z.ltb_spec (2 * r') P),
      (Z.ltb_spec P (2 * r)), (Z.ltb_spec P (2 * r')), (Z.even q); lia.
  - assert (q + 1 <= q') by lia.
    destruct (Z.ltb_spec (2 * r) P), (Z.ltb_spec (2 * r') P),
      (Z.ltb_spec P (2 * r)), (Z.ltb_spec P (2 * r')), (Z.even q), (Z.even q'); lia.
Qed.

(** Scaling the numerator and the divisor alike does not change the
    rounded quotient. *)
Lemma rne_scale (m n j : Z) :
  0 <= n -> 0 <= j -> rne (m * 2 ^ j) (n + j) = rne m n.
Proof.
  intros Hn Hj. unfold rne.
  assert (HP : 0 < 2 ^ n) by (apply Z.pow_pos_nonneg; lia).
  assert (HJ : 0 < 2 ^ j) by (apply Z.pow_pos_nonneg; lia).
  rewrite Z.pow_add_r by lia.
  rewrite Z.div_mul_cancel_r by lia.
  rewrite Zmult_mod_distr_r.
  set (q := m / 2 ^ n). set (r := m mod 2 ^ n).
  replace (2 * (r * 2 ^ j) <? 2 ^ n * 2 ^ j) with (2 * r <? 2 ^ n).
  2:{ destruct (Z.ltb_spec (2 * r) (2 ^ n)), (Z.ltb_spec (2 * (r * 2 ^ j)) (2 ^ n * 2 ^ j)); try done; nia. }
  replace (2 ^ n * 2 ^ j <? 2 * (r * 2 ^ j)) with (2 ^ n <? 2 * r).
  2:{ destruct (Z.ltb_spec (2 ^ n) (2 * r)), (Z.ltb_spec (2 ^ n * 2 ^ j) (2 * (r * 2 ^ j))); try done; nia. }
  done.
Qed.

Lemma canon_spec (W : Z) :
  2 ^ 52 <= W ->
  2 ^ 52 <= (canon W).1 < 2 ^ 53 /\ Z.log2 W - 52 <= (canon W).2 <= Z.log2 W - 51.
Proof.
  intros HW. unfold canon.
  assert (H52 : 52 <= Z.log2 W) by (apply Z.log2_le_pow2; lia).
  pose proof (Z.log2_spec W ltac:(lia)) as [Hlo Hhi].
  set (n := Z.log2 W + 1 - 53).
  assert (HP : 0 < 2 ^ n) by (apply Z.pow_pos_nonneg; lia).
  pose proof (rne_bounds W n ltac:(lia) ltac:(lia)) as Hb.
  assert (Hq : 2 ^ 52 <= W / 2 ^ n < 2 ^ 53).
  { replace (Z.log2 W) with (52 + n) in Hlo by lia.
    replace (Z.succ (Z.log2 W)) with (53 + n) in Hhi by lia.
    rewrite Z.pow_add_r in Hlo, Hhi by lia. split.
    - apply Z.div_le_lower_bound; lia.
    - apply Z.div_lt_upper_bound; lia. }
  destruct (Z.eqb_spec (rne W n) (2 ^ 53)) as [E|E]; cbn [fst snd]; lia.
Qed.

Lemma binary_round_aux_canon (p : positive) (ex : Z) :
  2 ^ 52 <= Z.pos p ->
  -1074 <= ex + Z.log2 (Z.pos p) - 52 ->
  binary_round_aux prec emax false (Z.pos p) ex loc_Exact
  = mkfloat ex (canon (Z.pos p)).
Proof.
  intros HW Hex.
  assert (H52 : 52 <= Z.log2 (Z.pos p)) by (apply Z.log2_le_pow2; lia).
  pose proof (canon_spec _ HW) as [Hm He]. revert Hm He.
  unfold binary_round_aux, shr_fexp, canon, mkfloat.
  rewrite Zdigits2_log2 by lia.
  rewrite fexp_normal by lia.
  set (n := Z.log2 (Z.pos p) + 1 - 53).
  replace (Z.log2 (Z.pos p) + 1 + ex - 53 - ex) with n by lia.
  cbn [shr_record_of_loc].
  pose proof (shr_exact (Z.pos p) ex n ltac:(lia) ltac:(lia)) as Hshr.
  destruct (shr _ ex n) as [mrs' e']. destruct Hshr as [-> ->].
  set (q := rne (Z.pos p) n).
  pose proof (rne_bounds (Z.pos p) n ltac:(lia) ltac:(lia)) as Hb. fold q in Hb.
  destruct (Z.eqb_spec q (2 ^ 53)) as [E|E]; cbn [fst snd]; intros Hm He.
  - rewrite E. rewrite Zdigits2_log2 by lia.
    replace (Z.log2 (2 ^ 53)) with 53 by (by vm_compute).
    rewrite fexp_normal by lia.
    replace (53 + 1 + (ex + n) - 53 - (ex + n)) with 1 by lia.
    replace (ex + (n + 1)) with (ex + n + 1) by lia.
    reflexivity.
  - assert (Hq : 2 ^ 52 <= q < 2 ^ 53) by lia.
    rewrite Zdigits2_log2 by lia.
    replace (Z.log2 q) with 52 by (symmetry; apply Z.log2_unique; lia).
    rewrite fexp_normal by lia.
    replace (52 + 1 + (ex + n) - 53 - (ex + n)) with 0 by lia.
    cbn [shr shr_m]. destruct q as [|pq|pq]; try lia. reflexivity.
Qed.

Lemma canon_scale (W j : Z) :
  2 ^ 52 <= W -> 0 <= j ->
  canon (W * 2 ^ j) = ((canon W).1, (canon W).2 + j).
Proof.
  intros HW Hj. unfold canon.
  assert (H52 : 52 <= Z.log2 W) by (apply Z.log2_le_pow2; lia).
  rewrite Z.log2_mul_pow2 by lia.
  replace (j + Z.log2 W + 1 - 53) with (Z.log2 W + 1 - 53 + j) by lia.
  rewrite rne_scale by lia.
  destruct (Z.eqb_spec (rne W (Z.log2 W + 1 - 53)) (2 ^ 53)); cbn [fst snd];
    f_equal; lia.
Qed.

Lemma mkfloat_scale (B W j : Z) :
  2 ^ 52 <= W -> 0 <= j ->
  mkfloat (B - j) (canon (W * 2 ^ j)) = mkfloat B (canon W).
Proof.
  intros HW Hj. rewrite canon_scale by done. unfold mkfloat. cbn [fst snd].
  by replace (B - j + ((canon W).2 + j)) with (B + (canon W).2) by lia.
Qed.

Lemma mkfloat_rebase (B W j : Z) :
  2 ^ 52 <= W -> 0 <= j ->
  mkfloat B (canon W) = mkfloat (B - j) (canon (W * 2 ^ j)).
Proof. intros. by rewrite mkfloat_scale. Qed.

Lemma canon_mono (W W' : Z) :
  2 ^ 52 <= W <= W' -> canon_le (canon W) (canon W').
Proof.
  intros [HW HWW'].
  assert (H52 : 52 <= Z.log2 W) by (apply Z.log2_le_pow2; lia).
  assert (Hlog : Z.log2 W <= Z.log2 W') by (apply Z.log2_le_mono; lia).
  pose proof (canon_spec W HW) as [Hm He].
  pose proof (canon_spec W' ltac:(lia)) as [Hm' He'].
  revert Hm He Hm' He'. unfold canon, canon_le.
  set (n := Z.log2 W + 1 - 53). set (n' := Z.log2 W' + 1 - 53).
  pose proof (rne_bounds W n ltac:(lia) ltac:(lia)) as Hb.
  pose proof (rne_bounds W' n' ltac:(lia) ltac:(lia)) as Hb'.
  destruct (Z.eq_dec n n') as [Hn|Hn].
  - rewrite <- Hn in *. pose proof (rne_mono W W' n ltac:(lia) ltac:(lia)).
    destruct (Z.eqb_spec (rne W n) (2 ^ 53)), (Z.eqb_spec (rne W' n) (2 ^ 53));
      cbn [fst snd]; lia.
  - destruct (Z.eqb_spec (rne W n) (2 ^ 53)), (Z.eqb_spec (rne W' n') (2 ^ 53));
      cbn [fst snd]; lia.
Qed.

Lemma canon_val_mono (c c' : Z * Z) :
  2 ^ 52 <= c.1 < 2 ^ 53 -> 2 ^ 52 <= c'.1 < 2 ^ 53 -> 0 <= c.2 ->
  canon_le c c' -> canon_val c <= canon_val c'.
Proof.
  intros Hm Hm' He [Hlt|[Heq Hle]]; unfold canon_val.
  - assert (HP : 0 < 2 ^ c.2) by (apply Z.pow_pos_nonneg; lia).
    assert (Hpow : 2 ^ (53 + c.2) <= 2 ^ (52 + c'.2))
      by (apply Z.pow_le_mono_r; lia).
    rewrite !Z.pow_add_r in Hpow by lia.
    assert (HP' : 0 < 2 ^ c'.2) by (apply Z.pow_pos_nonneg; lia).
    nia.
  - rewrite Heq. apply Z.mul_le_mono_nonneg_r; [|done].
    apply Z.pow_nonneg. lia.
Qed.

Lemma SFleb_mkfloat (B : Z) (c c' : Z * Z) :
  0 < c.1 -> 0 < c'.1 -> canon_le c c' ->
  SFleb (mkfloat B c) (mkfloat B c') = true.
Proof.
  intros Hm Hm' Hle. unfold mkfloat, SFleb.
  destruct (Z.leb_spec (B + c.2) 971), (Z.leb_spec (B + c'.2) 971);
    cbn [SFcompare]; try done.
  - destruct Hle as [Hlt|[Heq Hle]].
    + by replace (B + c.2 ?= B + c'.2) with Lt by (symmetry; apply Z.compare_lt_iff; lia).
    + rewrite Heq, Z.compare_refl.
      change (Pos.compare_cont Eq ?a ?b) with (Pos.compare a b).
      destruct (Pos.compare_spec (Z.to_pos c.1) (Z.to_pos c'.1)); try done. lia.
  - destruct Hle as [?|[? ?]]; lia.
Qed.

(** The [float] of a positive [int]. *)
Lemma shift_pos_pow (p : positive) (k : positive) :
  Z.pos (Pos.iter xO p k) = Z.pos p * 2 ^ Z.pos k.
Proof.
  induction k as [|k IH] using Pos.peano_ind.
  - simpl. lia.
  - rewrite Pos.iter_succ, Pos2Z.inj_xO, IH, Pos2Z.inj_succ, Z.pow_succ_r; lia.
Qed.

Lemma float_of_int_pos (p : positive) :
  float_of_int (Z.pos p) = mkfloat (-104) (canon (Z.pos p * 2 ^ 104)).
Proof.
  unfold float_of_int, binary_normalize, binary_round, shl_align.
  pose proof (digits2_bounds p) as Hd. rewrite digits2_log2 in *.
  assert (H0 : 0 <= Z.log2 (Z.pos p)) by apply Z.log2_nonneg.
  rewrite Z.add_0_r. rewrite fexp_normal by lia. rewrite Z.sub_0_r.
  destruct (Z.log2 (Z.pos p) + 1 - 53) as [|k|k] eqn:Hk.
  - assert (H52 : 2 ^ 52 <= Z.pos p)
      by (replace (Z.log2 (Z.pos p) + 1 - 1) with 52 in Hd by lia; lia).
    rewrite binary_round_aux_canon by lia.
    by rewrite (mkfloat_rebase 0 _ 104) by lia.
  - assert (H52 : 2 ^ 52 <= Z.pos p).
    { transitivity (2 ^ (Z.log2 (Z.pos p) + 1 - 1)); [|lia].
      apply Z.pow_le_mono_r; lia. }
    rewrite binary_round_aux_canon by lia.
    by rewrite (mkfloat_rebase 0 _ 104) by lia.
  - set (d := Z.log2 (Z.pos p) + 1) in *.
    assert (Hk' : Z.pos k = 53 - d) by lia.
    assert (Hmz : Z.pos (Pos.iter xO p k) = Z.pos p * 2 ^ (53 - d))
      by (by rewrite shift_pos_pow, Hk').
    assert (Hlo : 2 ^ 52 <= Z.pos p * 2 ^ (53 - d) < 2 ^ 53).
    { assert (Hd53 : 0 <= 53 - d) by lia.
      assert (E52 : 2 ^ 52 = 2 ^ (d - 1) * 2 ^ (53 - d))
        by (rewrite <- Z.pow_add_r by lia; f_equal; lia).
      assert (E53 : 2 ^ 53 = 2 ^ d * 2 ^ (53 - d))
        by (rewrite <- Z.pow_add_r by lia; f_equal; lia).
      assert (0 < 2 ^ (53 - d)) by (by apply Z.pow_pos_nonneg).
      rewrite E52, E53. nia. }
    rewrite binary_round_aux_canon.
    + rewrite Hmz.
      rewrite (mkfloat_rebase (Z.neg k) (Z.pos p * 2 ^ (53 - d)) (104 - (53 - d))) by lia.
      rewrite <- Z.mul_assoc, <- Z.pow_add_r by lia.
      replace (53 - d + (104 - (53 - d))) with 104 by lia.
      f_equal. lia.
    + lia.
    + rewrite Hmz. replace (Z.log2 (Z.pos p * 2 ^ (53 - d))) with 52
        by (symmetry; apply Z.log2_unique; lia). lia.
Qed.

Lemma fmul_finite_F1_3 (m : positive) (e : Z) :
  2 ^ 52 <= Z.pos m < 2 ^ 53 -> -1074 <= e ->
  fmul (S754_finite false m e) F1_3 = mkfloat (e - 52) (canon (Z.pos m * M1_3)).
Proof.
  intros Hm He. unfold fmul, F1_3, SFmul. cbn [xorb].
  assert (H104 : 2 ^ 104 <= Z.pos m * M1_3).
  { change (2 ^ 104) with (2 ^ 52 * 2 ^ 52). unfold M1_3.
    change (2 ^ 52) with 4503599627370496 in *. nia. }
  assert (Hlog : 104 <= Z.log2 (Z.pos m * M1_3)) by (apply Z.log2_le_pow2; lia).
  rewrite binary_round_aux_canon.
  - by rewrite Pos2Z.inj_mul.
  - rewrite Pos2Z.inj_mul. fold M1_3.
    transitivity (2 ^ 104); [by vm_compute | done].
  - rewrite Pos2Z.inj_mul. fold M1_3. lia.
Qed.

Lemma fmul_mkfloat_F1_3 (W : Z) :
  2 ^ 104 <= W ->
  fmul (mkfloat (-104) (canon W)) F1_3 = times_1_3 (canon W).
Proof.
  intros HW.
  assert (HW52 : 2 ^ 52 <= W) by (transitivity (2 ^ 104); [by vm_compute | done]).
  assert (Hlog : 104 <= Z.log2 W) by (apply Z.log2_le_pow2; lia).
  pose proof (canon_spec W HW52) as [Hm He].
  unfold mkfloat at 1. unfold times_1_3.
  destruct (Z.leb_spec (-104 + (canon W).2) 971) as [Hfin|Hinf]; [|done].
  rewrite fmul_finite_F1_3 by (rewrite ?Z2Pos.id; lia).
  rewrite Z2Pos.id by lia.
  assert (H104 : 2 ^ 52 <= (canon W).1 * M1_3).
  { unfold M1_3. change (2 ^ 52) with 4503599627370496 in *. nia. }
  rewrite (mkfloat_rebase _ _ (canon W).2) by lia.
  unfold canon_val. f_equal; [lia|]. f_equal. lia.
Qed.

Lemma float_of_int_times_1_3 (p : positive) :
  fmul (float_of_int (Z.pos p)) F1_3 = times_1_3 (canon (Z.pos p * 2 ^ 104)).
Proof.
  rewrite float_of_int_pos. apply fmul_mkfloat_F1_3.
  assert (0 < 2 ^ 104) by (by vm_compute). nia.
Qed.

Lemma times_1_3_mono (W W' : Z) :
  2 ^ 104 <= W <= W' ->
  SFleb (times_1_3 (canon W)) (times_1_3 (canon W')) = true.
Proof.
  intros [HW HWW'].
  assert (HW52 : 2 ^ 52 <= W) by (transitivity (2 ^ 104); [by vm_compute | done]).
  assert (Hlog : 104 <= Z.log2 W) by (apply Z.log2_le_pow2; lia).
  assert (Hlog' : Z.log2 W <= Z.log2 W') by (apply Z.log2_le_mono; lia).
  pose proof (canon_spec W HW52) as [Hm He].
  pose proof (canon_spec W' ltac:(lia)) as [Hm' He'].
  pose proof (canon_mono W W' ltac:(lia)) as Hle.
  pose proof (canon_val_mono _ _ Hm Hm' ltac:(lia) Hle) as Hval.
  assert (Hv : 2 ^ 52 <= canon_val (canon W)).
  { unfold canon_val. assert (1 <= 2 ^ (canon W).2)
      by (change 1 with (2 ^ 0); apply Z.pow_le_mono_r; lia). nia. }
  unfold times_1_3.
  destruct (Z.leb_spec (-104 + (canon W).2) 971),
    (Z.leb_spec (-104 + (canon W').2) 971).
  - assert (HM : 2 ^ 52 <= canon_val (canon W) * M1_3
                 <= canon_val (canon W') * M1_3) by (unfold M1_3; nia).
    pose proof (canon_spec _ (proj1 HM)) as [? _].
    pose proof (canon_spec (canon_val (canon W') * M1_3) ltac:(lia)) as [? _].
    apply SFleb_mkfloat; [lia | lia | by apply canon_mono].
  - unfold mkfloat. by destruct (_ <=? 971).
  - destruct Hle as [?|[? ?]]; lia.
  - done.
Qed.

(** The estimate does not decrease when the word count grows. *)
Lemma estimate_mono (n n' : Z) :
  0 <= n <= n' ->
  SFleb (fmul (float_of_int n) F1_3) (fmul (float_of_int n') F1_3) = true.
Proof.
  intros [Hn Hnn'].
  assert (H104 : 0 < 2 ^ 104) by (by vm_compute).
  assert (Hpos : forall p : positive,
            SFleb (S754_zero false) (times_1_3 (canon (Z.pos p * 2 ^ 104))) = true).
  { intros p. unfold times_1_3, mkfloat.
    by repeat match goal with |- context [if ?b then _ else _] => destruct b end. }
  destruct n as [|p|p]; [| |lia].
  - destruct n' as [|p'|p']; [done| |lia].
    rewrite float_of_int_times_1_3. apply Hpos.
  - destruct n' as [|p'|p']; [lia| |lia].
    rewrite !float_of_int_times_1_3. apply times_1_3_mono. nia.
Qed.

End Binary64.

(** ** Comparisons of floats *)

Lemma SFcompare_antisym (x y : float) (c : comparison) :
  SFcompare x y = Some c -> SFcompare y x = Some (CompOpp c).
Proof.
  destruct x as [sx|sx| |sx mx ex], y as [sy|sy| |sy my ey]; cbn [SFcompare];
    try discriminate;
    try (intros [= <-]; by repeat match goal with b : bool |- _ => destruct b end).
  intros [= <-]. f_equal.
  rewrite (Z.compare_antisym ex ey).
  change (Pos.compare_cont Eq my mx) with (Pos.compare_cont (CompOpp Eq) my mx).
  rewrite <- (Pos.compare_cont_antisym mx my Eq).
  destruct sx, sy; try done;
    destruct (ex ?= ey)%Z; cbn [CompOpp]; try done;
    by destruct (Pos.compare_cont Eq mx my).
Qed.

Lemma SFleb_negb_SFltb (x y : float) :
  x <> S754_nan -> y <> S754_nan -> SFleb x y = negb (SFltb y x).
Proof.
  intros Hx Hy. unfold SFleb, SFltb.
  destruct (SFcompare x y) as [c|] eqn:Hc.
  - rewrite (SFcompare_antisym _ _ _ Hc). by destruct c.
  - destruct x, y; cbn [SFcompare] in Hc; try discriminate; done.
Qed.

Lemma float_gt_int_not_nan (x : float) (n : Z) :
  float_gt_int x n = true -> x <> S754_nan.
Proof.
  intros H ->. unfold float_gt_int, SFltb in H.
  by destruct (float_of_int n).
Qed.

Lemma float_gt_100000_gt_50000 (x : float) :
  float_gt_int x 100000 = true -> float_gt_int x 50000 = true.
Proof.
  unfold float_gt_int, SFltb.
  change (float_of_int 100000) with (S754_finite false 6871947673600000 (-36)).
  change (float_of_int 50000) with (S754_finite false 6871947673600000 (-37)).
  destruct x as [s|[|]| |[|] m e]; cbn [SFcompare]; try done.
  destruct (Z.compare_spec (-36) e), (Z.compare_spec (-37) e); try done; lia.
Qed.

(** ** The token budget *)

(** C2. The banner of an estimate is the error exactly above 100,000,
    the warning exactly above 50,000 and at most 100,000, and the
    success otherwise; an estimate above 120,000 ends the submission in
    the "too large" error in place of the API call; at 125,000 the
    banner is the error and the call is not made; and a submission whose
    system prompt is estimated above 120,000 makes no call. *)
Theorem token_budget_levels (est_tokens : float) :
  (token_banner est_tokens = BannerError
   <-> float_gt_int est_tokens 100000 = true)
  /\ (token_banner est_tokens = BannerWarning
      <-> float_gt_int est_tokens 50000 = true
          /\ SFleb est_tokens (float_of_int 100000) = true)
  /\ (token_banner est_tokens = BannerSuccess
      <-> float_gt_int est_tokens 50000 = false)
  /\ (forall system_prompt user_prompt : str,
        float_gt_int est_tokens 120000 = true ->
        token_gate est_tokens system_prompt user_prompt
        = TooLarge system_prompt)
  /\ token_banner (float_of_int 125000) = BannerError
  /\ (forall system_prompt user_prompt : str,
        token_gate (float_of_int 125000) system_prompt user_prompt
        = TooLarge system_prompt)
  /\ (forall (env : environment) (d : disk)
        (openai_api_key study_type history findings system_prompt : str),
        openai_api_key <> [] ->
        system_prompt_for env d study_type = Ok system_prompt ->
        float_gt_int (count_tokens_estimate system_prompt) 120000 = true ->
        submission_handler env d true openai_api_key study_type history findings
        = Ok (TooLarge system_prompt)).
Proof.
  split; [|split; [|split; [|split; [|split; [|split]]]]].
  - unfold token_banner.
    destruct (float_gt_int est_tokens 100000); [done|].
    by destruct (float_gt_int est_tokens 50000).
  - unfold token_banner.
    destruct (float_gt_int est_tokens 100000) eqn:H100.
    + split; [done|]. intros [H50 Hle].
      rewrite SFleb_negb_SFltb in Hle;
        [| by apply (float_gt_int_not_nan _ 50000) | done].
      unfold float_gt_int in H100. by rewrite H100 in Hle.
    + destruct (float_gt_int est_tokens 50000) eqn:H50; [|by split; [|intros []]].
      split; [|done]. intros _. split; [done|].
      rewrite SFleb_negb_SFltb;
        [| by apply (float_gt_int_not_nan _ 50000) | done].
      unfold float_gt_int in H100. by rewrite H100.
  - unfold token_banner.
    destruct (float_gt_int est_tokens 100000) eqn:H100.
    + by rewrite (float_gt_100000_gt_50000 _ H100).
    + by destruct (float_gt_int est_tokens 50000).
  - intros system_prompt user_prompt H. unfold token_gate. by rewrite H.
  - reflexivity.
  - reflexivity.
  - intros env d key study_type history findings system_prompt Hkey Hsys Hest.
    unfold submission_handler. rewrite bool_decide_eq_false_2 by done.
    cbn [andb negb]. rewrite Hsys. cbn [bind]. unfold token_gate.
    by rewrite Hest.
Qed.

Lemma token_budget_levels_witness :
  float_gt_int (count_tokens_estimate long_prompt) 120000 = true
  /\ forall env : environment,
       submission_handler env disk_long_prompt true (py "sk-test") (py "CT Chest")
         [] (py "6 mm nodule")
       = Ok (TooLarge long_prompt).
Proof.
  assert (Hrep : replace long_prompt PLACEHOLDER NO_DOCUMENT_NOTICE = long_prompt).
  { refine (bool_decide_unpack _ _). vm_compute. exact I. }
  assert (Hest : float_gt_int (count_tokens_estimate long_prompt) 120000 = true).
  { vm_compute. reflexivity. }
  split; [exact Hest|]. intros env.
  pose proof (token_budget_levels (count_tokens_estimate long_prompt))
    as (_ & _ & _ & _ & _ & _ & Hblock).
  apply Hblock.
  - discriminate.
  - unfold system_prompt_for, document_content_for, assemble.
    replace (get_study_prompt disk_long_prompt (py "CT Chest"))
      with (Ok (JStr long_prompt)).
    2:{ unfold get_study_prompt, load_study_prompts, disk_long_prompt.
        cbn [prompts_file]. by rewrite lookup_singleton_eq. }
    replace (path_exists disk_long_prompt (get_study_document_path (py "CT Chest")))
      with false by (by vm_compute).
    cbn [bind]. by rewrite Hrep.
  - exact Hest.
Defined.

(** ** The token estimate *)

Lemma split_loop_length (cur s : str) :
  length (split_loop cur s)
  = (match cur with [] => 0 | _ => 1 end)
    + word_starts (match cur with [] => true | _ => false end) s.
Proof.
  revert cur. induction s as [|c s IH]; intros cur; cbn [split_loop word_starts].
  - by destruct cur.
  - destruct (isspace c) eqn:Hc.
    + destruct cur; cbn [length]; rewrite IH; cbn; lia.
    + rewrite IH. destruct cur; cbn; lia.
Qed.

Lemma split_length (text : str) : length (split text) = word_count text.
Proof. apply split_loop_length. Qed.

(** Every word of [split] is non-empty and free of whitespace. *)
Lemma split_loop_words (cur s : str) :
  Forall (fun c => isspace c = false) cur ->
  Forall (fun w => w <> [] /\ Forall (fun c => isspace c = false) w)
    (split_loop cur s).
Proof.
  revert cur. induction s as [|c s IH]; intros cur Hcur; cbn [split_loop].
  - destruct cur as [|a cur]; constructor; [|done]. split.
    + intros H%(f_equal length). rewrite length_rev in H. done.
    + by apply Forall_rev.
  - destruct (isspace c) eqn:Hc.
    + destruct cur as [|a cur]; [by apply IH|]. constructor; [|by apply IH].
      split.
      * intros H%(f_equal length). rewrite length_rev in H. done.
      * by apply Forall_rev.
    + apply IH. by constructor.
Qed.

(** C6. For every text, [count_tokens_estimate] is the binary64 product
    of the number of whitespace-separated words and [1.3], the words
    being the non-empty whitespace-free runs that [split] returns; the
    estimate of the empty text is zero; it depends on the text through
    the word count only; and it does not decrease when the word count
    grows.  Three words give 3.9000000000000004. *)
Theorem count_tokens_estimate_words (text : str) :
  count_tokens_estimate text
  = fmul (float_of_int (Z.of_nat (word_count text))) F1_3
  /\ Forall (fun w => w <> [] /\ Forall (fun c => isspace c = false) w)
       (split text)
  /\ count_tokens_estimate [] = S754_zero false
  /\ count_tokens_estimate (py "no acute findings")
     = S754_finite false 8782019273372468 (-51)
  /\ (forall text' : str,
        word_count text = word_count text' ->
        count_tokens_estimate text = count_tokens_estimate text')
  /\ (forall text' : str,
        word_count text <= word_count text' ->
        SFleb (count_tokens_estimate text) (count_tokens_estimate text') = true).
Proof.
  unfold count_tokens_estimate at 1 4 5 6 7. rewrite split_length.
  split; [done|]. split; [by apply split_loop_words|]. split; [done|].
  split; [reflexivity|]. split.
  - intros text' H. by rewrite split_length, H.
  - intros text' H. rewrite split_length. apply estimate_mono. lia.
Qed.

Lemma count_tokens_estimate_words_witness :
  SFleb (count_tokens_estimate (py "no acute findings"))
    (count_tokens_estimate (py "  no   acute intracranial
findings ")) = true.
Proof.
  destruct (count_tokens_estimate_words (py "no acute findings"))
    as (_ & _ & _ & _ & _ & Hmono).
  apply Hmono. vm_compute. lia.
Defined.

(** * Further properties *)

(** ** More on prompt assembly *)

Lemma join_cons2 (sep p q : str) (rest : list str) :
  join sep (p :: q :: rest) = p ++ sep ++ join sep (q :: rest).
Proof. done. Qed.

(** X1. For every list of segments without the token and every document
    text, assembling the segments joined by ["{document_content}"]
    gives the segments joined by the document text: [replace] is
    [doc.join(template.split(token))]. *)
Theorem assemble_join_segments (segments : list str) (document_content : str) :
  Forall (fun seg => contains PLACEHOLDER seg = false) segments ->
  assemble (join PLACEHOLDER segments) document_content
  = join document_content segments.
Proof.
  unfold assemble. change PLACEHOLDER with (123%N :: py "document_content}").
  intros Hsegs. induction Hsegs as [|seg rest Hseg Hrest IH]; [done|].
  destruct rest as [|seg' rest].
  - cbn [join]. by apply replace_absent.
  - rewrite !join_cons2.
    rewrite replace_app_occurrence by apply placeholder_head_once.
    by rewrite IH, (replace_absent _ _ _ seg Hseg).
Qed.

Lemma assemble_join_segments_witness :
  assemble (py "Rules: {document_content} End. Again: {document_content}")
    (py "6mm")
  = py "Rules: 6mm End. Again: 6mm".
Proof.
  apply (assemble_join_segments [py "Rules: "; py " End. Again: "; []] (py "6mm")).
  repeat constructor.
Defined.

(** X2. The "Save Prompt" button saves a prompt that holds no
    ["{document_content}"] all the same, after its warning; from then
    on the system prompt of that study is the saved prompt itself,
    whatever document is on disk and whatever the extractors return. *)
Theorem prompt_without_placeholder_drops_document (d d' : disk)
    (config_study edited_prompt : str) (io : io_outcome) (warned : bool) :
  contains PLACEHOLDER edited_prompt = false ->
  save_prompt_button d config_study edited_prompt io = Ok (d', warned, true) ->
  warned = true
  /\ forall env : environment,
       system_prompt_for env d' config_study = Ok edited_prompt.
Proof.
  intros Habsent. unfold save_prompt_button, save_study_prompt. rewrite Habsent.
  destruct (load_study_prompts d) as [| | | | |prompts]; try done.
  destruct io; cbn [bind fst snd negb]; intros [= <- <-]; try done.
  split; [done|]. intros env.
  unfold system_prompt_for, get_study_prompt, load_study_prompts.
  cbn [prompts_file]. rewrite lookup_insert_eq. cbn [default bind].
  f_equal. by apply (replace_absent 123 (py "document_content}")).
Qed.

Lemma prompt_without_placeholder_drops_document_witness :
  let d := (save_study_document empty_disk (py "CT Chest") [x50; x4b] IoOk).1 in
  system_prompt_for docx2txt_env
    {| prompts_file :=
         PromptsJson (JObj (<[ py "CT Chest" := JStr (py "Be brief.") ]> ∅));
       files := files d |}
    (py "CT Chest")
  = Ok (py "Be brief.").
Proof.
  intros d.
  destruct (prompt_without_placeholder_drops_document d
              {| prompts_file :=
                   PromptsJson (JObj (<[ py "CT Chest" := JStr (py "Be brief.") ]> ∅));
                 files := files d |}
              (py "CT Chest") (py "Be brief.") IoOk true) as [_ H];
    [reflexivity | reflexivity | apply H].
Defined.

(** ** More on the prompt store *)



(** X4. A prompt save that reports failure either left the disk as it
    was ([open] raised), or failed while writing: then the record file
    is left unloadable and every study, also those with a stored
    prompt, reads the default template; the documents are untouched. *)
Theorem failed_prompt_save (d d' : disk) (study_name prompt : str)
    (io : io_outcome) :
  save_study_prompt d study_name prompt io = Ok (d', false) ->
  (io = IoOpenFails /\ d' = d)
  \/ ((exists written : nat, io = IoWriteFails written)
      /\ files d' = files d
      /\ forall other : str,
           get_study_prompt d' other = Ok (JStr DEFAULT_PROMPT)).
Proof.
  unfold save_study_prompt.
  destruct (load_study_prompts d) as [| | | | |prompts]; try done.
  destruct io as [| |written]; intros [= <-]; [by left|right].
  split; [by exists written|]. split; [done|]. intros other.
  unfold get_study_prompt, load_study_prompts. cbn [prompts_file].
  by rewrite lookup_empty.
Qed.

Lemma failed_prompt_save_witness :
  let d := {| prompts_file :=
                PromptsJson (JObj {[ py "MRI Brain" := JStr (py "Custom") ]});
              files := ∅ |} in
  let d' := {| prompts_file := PromptsUnreadable; files := ∅ |} in
  get_study_prompt d (py "MRI Brain") = Ok (JStr (py "Custom"))
  /\ get_study_prompt d' (py "MRI Brain") = Ok (JStr DEFAULT_PROMPT).
Proof.
  intros d d'. split; [by vm_compute|].
  destruct (failed_prompt_save d d' (py "CT Chest") (py "P") (IoWriteFails 3))
    as [[H _]|(_ & _ & H)]; [reflexivity | discriminate | apply H].
Defined.

(** X5. On a record file that loads to something other than a mapping,
    a save raises [TypeError] and every read raises [AttributeError];
    on an absent or unloadable record file a successful save writes a
    mapping that holds the new entry alone. *)
Theorem prompt_save_needs_mapping (d : disk) (study_name prompt : str)
    (io : io_outcome) :
  (forall v : json,
     prompts_file d = PromptsJson v ->
     (forall prompts, v <> JObj prompts) ->
     save_study_prompt d study_name prompt io = Raise TypeError
     /\ forall other : str, get_study_prompt d other = Raise AttributeError)
  /\ (prompts_file d = PromptsAbsent \/ prompts_file d = PromptsUnreadable ->
      save_study_prompt d study_name prompt IoOk
      = Ok ({| prompts_file := PromptsJson (JObj {[ study_name := JStr prompt ]});
               files := files d |}, true)).
Proof.
  split.
  - intros v Hfile Hv. unfold save_study_prompt, get_study_prompt, load_study_prompts.
    rewrite Hfile. destruct v; try done. by destruct (Hv members).
  - unfold save_study_prompt, load_study_prompts.
    by intros [-> | ->]; rewrite insert_empty.
Qed.

Lemma prompt_save_needs_mapping_witness :
  save_study_prompt {| prompts_file := PromptsJson (JArr []); files := ∅ |}
    (py "CT Chest") (py "P") IoOk = Raise TypeError
  /\ save_study_prompt {| prompts_file := PromptsUnreadable; files := ∅ |}
       (py "CT Chest") (py "P") IoOk
     = Ok ({| prompts_file := PromptsJson (JObj {[ py "CT Chest" := JStr (py "P") ]});
              files := ∅ |}, true).
Proof.
  split.
  - destruct (prompt_save_needs_mapping
                {| prompts_file := PromptsJson (JArr []); files := ∅ |}
                (py "CT Chest") (py "P") IoOk) as [H _].
    apply (H (JArr [])); [reflexivity | discriminate].
  - destruct (prompt_save_needs_mapping
                {| prompts_file := PromptsUnreadable; files := ∅ |}
                (py "CT Chest") (py "P") IoOk) as [_ H].
    apply H. by right.
Defined.

(** X6. A prompt save, whatever its outcome, changes no document: the
    existence check and the extracted text of every path stay as they
    were.  A document save or removal, whatever its outcome, changes no
    prompt. *)
Theorem stores_are_independent (d d' : disk) (study_name : str) :
  (forall (prompt : str) (io : io_outcome) (ok : bool),
     save_study_prompt d study_name prompt io = Ok (d', ok) ->
     forall (env : environment) (file_path : str),
       path_exists d' file_path = path_exists d file_path
       /\ load_document_content env d' file_path
          = load_document_content env d file_path)
  /\ (forall (buffer : list byte) (io : io_outcome) (ok : bool),
        save_study_document d study_name buffer io = (d', ok) ->
        forall other : str, get_study_prompt d' other = get_study_prompt d other)
  /\ (forall permitted ok : bool,
        remove_document d study_name permitted = (d', ok) ->
        forall other : str, get_study_prompt d' other = get_study_prompt d other).
Proof.
  split; [|split].
  - intros prompt io ok. unfold save_study_prompt.
    destruct (load_study_prompts d); try done.
    by destruct io; intros [= <- <-].
  - intros buffer io ok. unfold save_study_document.
    by destruct io; intros [= <- <-].
  - intros permitted ok. unfold remove_document, unlink.
    destruct (path_exists d _); [|by intros [= <- <-]].
    by destruct permitted; intros [= <- <-].
Qed.

Lemma stores_are_independent_witness :
  let d := {| prompts_file :=
                PromptsJson (JObj {[ py "MRI Brain" := JStr (py "Custom") ]});
              files := ∅ |} in
  let d' := (save_study_document d (py "MRI Brain") [x50; x4b] IoOk).1 in
  get_study_prompt d' (py "MRI Brain") = get_study_prompt d (py "MRI Brain").
Proof.
  intros d d'.
  destruct (stores_are_independent d d' (py "MRI Brain")) as (_ & H & _).
  apply (H [x50; x4b] IoOk true). reflexivity.
Defined.

(** ** More on the document store *)

Lemma sanitize_char_safe (c : N) :
  sanitize_char c <> 47%N /\ sanitize_char c <> 32%N.
Proof.
  unfold sanitize_char.
  destruct (N.eqb_spec c 47) as [->|H47]; [done|].
  destruct (N.eqb_spec c 32) as [->|H32]; done.
Qed.

Lemma document_path_eq_iff (a b : str) :
  get_study_document_path a = get_study_document_path b
  <-> map sanitize_char a = map sanitize_char b.
Proof.
  unfold get_study_document_path. rewrite !safe_name_map. split.
  - intros H. apply app_inv_head in H. apply app_inv_head in H.
    by apply app_inv_tail in H.
  - by intros ->.
Qed.

(** X7. The document path of a study is
    ["config/study_documents/"], a file name as long as the study name
    that holds neither ['/'] nor [' '], and [".docx"]; it is never the
    prompt record file; and the download name of the document text
    holds no ['/']. *)
Theorem document_path_shape (study_name : str) :
  (exists name : str,
     get_study_document_path study_name
     = py "config/study_documents/" ++ name ++ py ".docx"
     /\ length name = length study_name
     /\ (47%N ∉ name) /\ (32%N ∉ name))
  /\ get_study_document_path study_name <> PROMPTS_FILE
  /\ (47%N ∉ reference_doc_file_name study_name).
Proof.
  split; [|split].
  - exists (safe_name study_name). split; [done|].
    rewrite safe_name_map, length_map. split; [done|].
    split; intros (c & Hc & _)%list_elem_of_fmap;
      by destruct (sanitize_char_safe c).
  - intros H. apply (f_equal (take 14)) in H. discriminate H.
  - unfold reference_doc_file_name. change (py "/") with [47%N].
    change (py "_") with [95%N]. rewrite replace_char.
    rewrite !elem_of_app. intros [H|[H|H]].
    + vm_compute in H.
      repeat (apply elem_of_cons in H as [H|H]; [discriminate|]).
      by apply elem_of_nil in H.
    + apply list_elem_of_fmap in H as (c & Hc & _).
      by destruct (N.eqb_spec 47 c).
    + vm_compute in H.
      repeat (apply elem_of_cons in H as [H|H]; [discriminate|]).
      by apply elem_of_nil in H.
Qed.

(** X8. After a successful document save for study [a], a study [b]
    with the same sanitised name has that very document: its document
    text is [a]'s, and removing [b]'s document removes [a]'s.  A study
    with another sanitised name keeps the file it had. *)
Theorem colliding_studies_share_document (d d' : disk) (a b : str)
    (buffer : list byte) :
  save_study_document d a buffer IoOk = (d', true) ->
  (map sanitize_char a = map sanitize_char b ->
   files d' !! get_study_document_path b = Some buffer
   /\ (forall env : environment,
         document_content_for env d' b = document_content_for env d' a)
   /\ path_exists (remove_document d' b true).1 (get_study_document_path a)
      = false)
  /\ (map sanitize_char a <> map sanitize_char b ->
      files d' !! get_study_document_path b
      = files d !! get_study_document_path b).
Proof.
  unfold save_study_document. intros [= <-]. cbn [files]. split.
  - intros Heq%document_path_eq_iff.
    split; [by rewrite <- Heq, lookup_insert_eq|].
    split; [intros env; unfold document_content_for; by rewrite Heq|].
    unfold remove_document, unlink. rewrite <- Heq.
    assert (Hex : forall fs, path_exists
              {| prompts_file := prompts_file d;
                 files := <[get_study_document_path a:=buffer]> fs |}
              (get_study_document_path a) = true).
    { intros fs. apply bool_decide_eq_true. cbn [files].
      rewrite lookup_insert_eq. by eexists. }
    rewrite Hex. cbn [fst]. apply bool_decide_eq_false. cbn [files].
    rewrite lookup_delete_eq. by intros [? ?].
  - intros Hne. apply lookup_insert_ne. by rewrite document_path_eq_iff.
Qed.

Lemma colliding_studies_share_document_witness :
  let d' := (save_study_document empty_disk (py "CT/Chest") [x50; x4b] IoOk).1 in
  files d' !! get_study_document_path (py "CT Chest") = Some [x50; x4b]
  /\ files d' !! get_study_document_path (py "MRCP") = None.
Proof.
  intros d'.
  destruct (colliding_studies_share_document empty_disk d' (py "CT/Chest")
              (py "CT Chest") [x50; x4b] eq_refl) as [[H _] _]; [reflexivity|].
  destruct (colliding_studies_share_document empty_disk d' (py "CT/Chest")
              (py "MRCP") [x50; x4b] eq_refl) as [_ H']; [].
  split; [exact H|]. rewrite H'; [reflexivity | discriminate].
Defined.

(** X9. A document save that reports failure either left the disk as
    it was ([open] raised), or failed while writing: then the study's
    path exists and holds the bytes written so far in place of any
    earlier document, and a submission extracts from that file. *)
Theorem failed_document_save (d d' : disk) (study_name : str)
    (buffer : list byte) (io : io_outcome) :
  save_study_document d study_name buffer io = (d', false) ->
  (io = IoOpenFails /\ d' = d)
  \/ exists written : nat,
       io = IoWriteFails written
       /\ path_exists d' (get_study_document_path study_name) = true
       /\ files d' !! get_study_document_path study_name
          = Some (take written buffer)
       /\ forall env : environment,
            document_content_for env d' study_name
            = load_document_content env d' (get_study_document_path study_name).
Proof.
  unfold save_study_document.
  destruct io as [| |written]; intros [= <-]; [by left|right].
  exists written. split; [done|].
  assert (Hex : path_exists
            {| prompts_file := prompts_file d;
               files := <[get_study_document_path study_name:=take written buffer]> (files d) |}
            (get_study_document_path study_name) = true).
  { apply bool_decide_eq_true. cbn [files]. rewrite lookup_insert_eq. by eexists. }
  split; [exact Hex|]. split; [cbn [files]; by rewrite lookup_insert_eq|].
  intros env. unfold document_content_for. by rewrite Hex.
Qed.

Lemma failed_document_save_witness :
  let d' := (save_study_document empty_disk (py "CT Chest") [x50; x4b; x03]
               (IoWriteFails 1)).1 in
  path_exists empty_disk (get_study_document_path (py "CT Chest")) = false
  /\ files d' !! get_study_document_path (py "CT Chest") = Some [x50].
Proof.
  intros d'. split; [by vm_compute|].
  destruct (failed_document_save empty_disk d' (py "CT Chest") [x50; x4b; x03]
              (IoWriteFails 1) eq_refl) as [[H _]|(w & Hw & _ & H & _)].
  - discriminate H.
  - injection Hw as <-. exact H.
Defined.

(** ** More on stripping *)

Lemma lstrip_head (s : str) :
  lstrip s = [] \/ exists c r, lstrip s = c :: r /\ isspace c = false.
Proof.
  induction s as [|c s IH]; [by left|]. cbn [lstrip].
  destruct (isspace c) eqn:Hc; [done|]. right. by exists c, s.
Qed.

Lemma lstrip_split (s : str) :
  exists ws : str, Forall (fun c => isspace c = true) ws /\ s = ws ++ lstrip s.
Proof.
  induction s as [|c s (ws & Hws & IH)]; [by exists []|]. cbn [lstrip].
  destruct (isspace c) eqn:Hc.
  - exists (c :: ws). split; [by constructor|]. by rewrite IH at 1.
  - by exists [].
Qed.

Lemma lstrip_id (c : N) (s : str) : isspace c = false -> lstrip (c :: s) = c :: s.
Proof. intros H. cbn [lstrip]. by rewrite H. Qed.

Lemma strip_ends (s : str) :
  strip s <> [] ->
  (exists c r, strip s = c :: r /\ isspace c = false)
  /\ (exists r c, strip s = r ++ [c] /\ isspace c = false).
Proof.
  unfold strip, rstrip. intros Hne. split.
  - destruct (lstrip_split (rev (lstrip s))) as (ws & Hws & Hrev).
    apply (f_equal (@rev N)) in Hrev. rewrite rev_involutive, rev_app_distr in Hrev.
    destruct (rev (lstrip (rev (lstrip s)))) as [|c r] eqn:Hr; [done|].
    exists c, r. split; [done|].
    destruct (lstrip_head s) as [H|(c' & r' & H & Hc')]; rewrite H in Hrev.
    + discriminate.
    + simpl in Hrev. by injection Hrev as <- _.
  - destruct (lstrip_head (rev (lstrip s))) as [H|(c & r & H & Hc)].
    + by rewrite H in Hne.
    + exists (rev r), c. by rewrite H.
Qed.

(** ** More on the extraction *)

Lemma join_two_nonempty (sep a b : str) (rest : list str) :
  a <> [] -> join sep (a :: b :: rest) <> [].
Proof. intros Ha. cbn [join]. by destruct a. Qed.

Lemma structured_content_nonempty (env : environment) (doc : document)
    (lines : list str) :
  structured_content env doc = Ok lines ->
  exists rest : str,
    join (py "
") lines
    = str_times (py "=") 80 ++ py "
REFERENCE DOCUMENT - COMPLETE CONTENT
" ++ rest.
Proof.
  unfold structured_content.
  destruct (paragraphs_lines env (doc_paragraphs doc)) as [body|e]; [|done].
  cbn [bind]. intros [= <-].
  set (tail := body ++ tables_section (doc_tables doc)).
  exists (str_times (py "=") 80 ++ py "
" ++ join (py "
") ([] :: tail)).
  change ([str_times (py "=") 80; py "REFERENCE DOCUMENT - COMPLETE CONTENT";
           str_times (py "=") 80; []] ++ tail)
    with (str_times (py "=") 80 :: py "REFERENCE DOCUMENT - COMPLETE CONTENT"
            :: str_times (py "=") 80 :: [] :: tail).
  cbn [join]. reflexivity.
Qed.

(** X10. [load_document_content] returns the empty text exactly when the
    file is missing, or the extraction raises, or [python-docx] is not
    installed and [docx2txt] is not installed or gave only whitespace. *)
Theorem empty_extraction_iff (env : environment) (d : disk) (file_path : str) :
  load_document_content env d file_path = []
  <-> files d !! file_path = None
      \/ exists bytes : list byte,
           files d !! file_path = Some bytes
           /\ ((exists e, load_document_try env bytes = Raise e)
               \/ (DocxDocument env = None
                   /\ (docx2txt_process env = None
                       \/ exists process content,
                            docx2txt_process env = Some process
                            /\ process bytes = Ok content
                            /\ strip content = []))).
Proof.
  unfold load_document_content.
  destruct (files d !! file_path) as [bytes|]; [|split; [by left|done]].
  assert (Hm2 : forall open_docx,
            DocxDocument env = Some open_docx ->
            (let* doc := open_docx bytes in
             let* lines := structured_content env doc in
             Ok (join (py "
") lines)) <> Ok []).
  { intros open_docx _. destruct (open_docx bytes) as [doc|e]; [|done].
    cbn [bind]. destruct (structured_content env doc) as [lines|e] eqn:Hs; [|done].
    cbn [bind]. destruct (structured_content_nonempty _ _ _ Hs) as [rest ->].
    done. }
  split.
  - intros Hempty. right. exists bytes. split; [done|].
    destruct (load_document_try env bytes) as [content|e] eqn:Htry;
      [|left; by exists e].
    subst content. right. revert Htry. unfold load_document_try.
    destruct (DocxDocument env) as [open_docx|] eqn:Hdocx.
    + specialize (Hm2 open_docx eq_refl).
      destruct (docx2txt_process env) as [process|]; [|done].
      destruct (process bytes) as [content|e]; [|done]. cbn [bind].
      by destruct (strip content).
    + intros Htry. split; [done|].
      destruct (docx2txt_process env) as [process|]; [|by left].
      right. exists process. destruct (process bytes) as [content|e]; [|done].
      exists content. cbn [bind] in Htry.
      by destruct (strip content).
  - intros [?|(bytes' & [= <-] & [[e ->]|(Hdocx & Hm1)])]; [done|done|].
    unfold load_document_try. rewrite Hdocx.
    destruct Hm1 as [->|(process & content & -> & -> & Hstrip)]; [done|].
    cbn [bind]. by rewrite Hstrip.
Qed.

Lemma empty_extraction_iff_witness :
  load_document_content failing_env
    (save_study_document empty_disk (py "CT Chest") [x00] IoOk).1
    (get_study_document_path (py "CT Chest"))
  = [].
Proof.
  apply empty_extraction_iff. right. exists [x00]. split; [by vm_compute|].
  left. by exists LibraryError.
Defined.

(** X11. With [docx2txt] installed, an exception of [docx2txt.process]
    ends the extraction with the empty text, without a try of
    [python-docx]; a whitespace-only result falls back to
    [python-docx], whose text begins with the 80 ['='] and the
    ["REFERENCE DOCUMENT - COMPLETE CONTENT"] line. *)
Theorem docx2txt_failure_blocks_fallback (env : environment) (d : disk)
    (file_path : str) (bytes : list byte) (process : list byte -> result str) :
  files d !! file_path = Some bytes ->
  docx2txt_process env = Some process ->
  (forall e : exn,
     process bytes = Raise e -> load_document_content env d file_path = [])
  /\ (forall (content : str) (open_docx : list byte -> result document)
        (doc : document) (lines : list str),
        process bytes = Ok content -> strip content = [] ->
        DocxDocument env = Some open_docx -> open_docx bytes = Ok doc ->
        structured_content env doc = Ok lines ->
        load_document_content env d file_path = join (py "
") lines
        /\ exists rest : str,
             load_document_content env d file_path
             = str_times (py "=") 80 ++ py "
REFERENCE DOCUMENT - COMPLETE CONTENT
" ++ rest).
Proof.
  intros Hfile Hproc. unfold load_document_content, load_document_try.
  rewrite Hfile, Hproc. split.
  - by intros e ->.
  - intros content open_docx doc lines -> Hstrip -> Hopen Hs. cbn [bind].
    rewrite Hstrip, Hopen. cbn [bind]. rewrite Hs. cbn [bind].
    split; [done|]. by apply (structured_content_nonempty env doc).
Qed.

Lemma docx2txt_failure_blocks_fallback_witness :
  let d := (save_study_document empty_disk (py "CT Chest") [x00] IoOk).1 in
  let p := get_study_document_path (py "CT Chest") in
  load_document_content failing_env d p = []
  /\ exists rest : str,
       load_document_content fallback_env d p
       = str_times (py "=") 80 ++ py "
REFERENCE DOCUMENT - COMPLETE CONTENT
" ++ rest.
Proof.
  intros d p. split.
  - destruct (docx2txt_failure_blocks_fallback failing_env d p [x00]
                (fun _ => Raise LibraryError)) as [H _];
      [by vm_compute | reflexivity |].
    by apply (H LibraryError).
  - destruct (docx2txt_failure_blocks_fallback fallback_env d p [x00]
                (fun _ => Ok (py "  "))) as [_ H];
      [by vm_compute | reflexivity |].
    eapply H; reflexivity.
Defined.

(** X12. When [docx2txt.process] returns a text that is not only
    whitespace, the extracted text is that text stripped: it begins and
    ends with a non-whitespace character. *)
Theorem docx2txt_text_is_stripped (env : environment) (d : disk)
    (file_path : str) (bytes : list byte) (process : list byte -> result str)
    (content : str) :
  files d !! file_path = Some bytes ->
  docx2txt_process env = Some process ->
  process bytes = Ok content ->
  strip content <> [] ->
  load_document_content env d file_path = strip content
  /\ (exists c r, load_document_content env d file_path = c :: r
                  /\ isspace c = false)
  /\ (exists r c, load_document_content env d file_path = r ++ [c]
                  /\ isspace c = false).
Proof.
  intros Hfile Hproc Hcontent Hne.
  assert (Hload : load_document_content env d file_path = strip content).
  { unfold load_document_content, load_document_try.
    rewrite Hfile, Hproc, Hcontent. cbn [bind]. by destruct (strip content). }
  rewrite Hload. split; [done|]. by apply strip_ends.
Qed.

Lemma docx2txt_text_is_stripped_witness :
  load_document_content docx2txt_env
    (save_study_document empty_disk (py "CT Chest") [x00] IoOk).1
    (get_study_document_path (py "CT Chest"))
  = py "Measure nodules.".
Proof.
  destruct (docx2txt_text_is_stripped docx2txt_env
              (save_study_document empty_disk (py "CT Chest") [x00] IoOk).1
              (get_study_document_path (py "CT Chest")) [x00]
              (fun _ => Ok (py "
  Measure nodules.  ")) (py "
  Measure nodules.  ")) as [H _];
    [by vm_compute | reflexivity | reflexivity | by vm_compute | exact H].
Defined.

(** ** Heading levels *)

Lemma contains_head_absent (h : N) (t s : str) :
  h ∉ s -> contains (h :: t) s = false.
Proof.
  intros Hh. induction s as [|c s IH]; [done|].
  apply not_elem_of_cons in Hh as [Hne Hs]. cbn [contains startswith].
  rewrite IH by done. by apply N.eqb_neq in Hne as ->.
Qed.

(** The decimal digits of a number, as characters. *)
Lemma string_of_uint_digits (u : Decimal.uint) :
  Forall (fun c => (48 <= c <= 57)%N) (py (NilEmpty.string_of_uint u)).
Proof. induction u; cbn [NilEmpty.string_of_uint py]; constructor; try done; lia. Qed.

Lemma str_of_nat_digits (n : nat) :
  str_of_nat n <> [] /\ Forall (fun c => (48 <= c <= 57)%N) (str_of_nat n).
Proof.
  unfold str_of_nat, NilZero.string_of_uint.
  destruct (Nat.to_uint n) as [|u|u|u|u|u|u|u|u|u|u] eqn:Hu.
  1: { split; [done|]. change (py "0") with [48%N].
       constructor; [lia | constructor]. }
  all: split; [done|].
  all: match goal with
       | |- Forall _ (py (NilEmpty.string_of_uint ?d)) =>
           apply (string_of_uint_digits d)
       end.
Qed.

Lemma digit_not_space (c : N) : (48 <= c <= 57)%N -> isspace c = false.
Proof.
  intros Hc. unfold isspace.
  repeat match goal with
         | |- context [(?a <=? ?b)%N] => destruct (N.leb_spec a b)
         | |- context [(?a =? ?b)%N] => destruct (N.eqb_spec a b)
         end; try done; lia.
Qed.

Lemma strip_word (w : str) :
  Forall (fun c => isspace c = false) w -> strip w = w.
Proof.
  intros Hw. unfold strip, rstrip.
  assert (Hl : forall x : str, Forall (fun c => isspace c = false) x -> lstrip x = x).
  { intros x Hx. destruct Hx as [|c x Hc _]; [done|]. by apply lstrip_id. }
  rewrite (Hl w Hw), Hl by (by apply Forall_rev). apply rev_involutive.
Qed.

Section Digits.
Variable env : environment.
Hypothesis digits : ascii_digits_decimal env.

Lemma int_loop_uint (u : Decimal.uint) (acc : nat) :
  int_loop env acc (py (NilEmpty.string_of_uint u)) = Ok (Nat.of_uint_acc u acc).
Proof.
  revert acc. induction u as [|u IH|u IH|u IH|u IH|u IH|u IH|u IH|u IH|u IH|u IH];
    intros acc; [done|..];
    cbn [NilEmpty.string_of_uint py int_loop Nat.of_uint_acc];
    match goal with
    | |- context [cp_decimal env ?c] =>
        destruct (digits c ltac:(by vm_compute)) as [_ ->]
    end;
    rewrite IH, Nat.tail_mul_spec; do 2 f_equal;
    match goal with
    | |- context [N.to_nat ?e] =>
        let v := eval vm_compute in (N.to_nat e) in change (N.to_nat e) with v
    end; lia.
Qed.

(** [int(str(n))] is [n], and [str(n)] passes [isdigit]. *)
Lemma int_of_str_of_nat (n : nat) :
  isdigit env (str_of_nat n) = true
  /\ int_of_digits env (str_of_nat n) = Ok n.
Proof.
  split.
  - destruct (str_of_nat_digits n) as [Hne Hd]. unfold isdigit.
    destruct (str_of_nat n) as [|c s]; [done|].
    apply forallb_forall. intros x Hx%list_elem_of_In.
    rewrite Forall_forall in Hd. by destruct (digits x (Hd x Hx)) as [-> _].
  - unfold int_of_digits, str_of_nat, NilZero.string_of_uint.
    rewrite <- (Unsigned.of_to n) at 2. unfold Nat.of_uint.
    destruct (Nat.to_uint n) as [|u|u|u|u|u|u|u|u|u|u] eqn:Hu.
    1: { change (py "0") with [48%N]. cbn [int_loop].
         by destruct (digits 48%N ltac:(by vm_compute)) as [_ ->]. }
    all: match goal with
         | |- int_loop env 0 (py (NilEmpty.string_of_uint ?d)) = _ =>
             apply (int_loop_uint d 0)
         end.
Qed.

End Digits.


Lemma ascii_env_digits : ascii_digits_decimal ascii_env.
Proof.
  intros c [H1 H2]. cbn [ascii_env cp_isdigit cp_decimal].
  apply N.leb_le in H1, H2. by rewrite H1, H2.
Qed.


Lemma paragraphs_lines_raise (env : environment) (paras : list paragraph)
    (para : paragraph) (e : exn) :
  para ∈ paras -> paragraph_lines env para = Raise e ->
  exists e' : exn, paragraphs_lines env paras = Raise e'.
Proof.
  intros Hin Hraise. induction paras as [|p rest IH]; [by apply elem_of_nil in Hin|].
  cbn [paragraphs_lines]. apply elem_of_cons in Hin as [<-|Hin].
  - rewrite Hraise. by exists e.
  - destruct (paragraph_lines env p); [|by eexists].
    cbn [bind]. destruct (IH Hin) as [e' ->]. by exists e'.
Qed.

(** X14. If [docx2txt] is not installed and some non-blank paragraph has
    a style name that starts with ["Heading"] and whose rest passes
    [isdigit] but is refused by [int] (a digit that is not a decimal
    one), the extraction of the whole document is the empty text. *)
Theorem undecodable_heading_empties_document (env : environment) (d : disk)
    (file_path : str) (bytes : list byte)
    (open_docx : list byte -> result document) (doc : document)
    (para : paragraph) :
  files d !! file_path = Some bytes ->
  docx2txt_process env = None ->
  DocxDocument env = Some open_docx ->
  open_docx bytes = Ok doc ->
  para ∈ doc_paragraphs doc ->
  strip (para_text para) <> [] ->
  startswith (para_style_name para) (py "Heading") = true ->
  isdigit env (strip (replace (para_style_name para) (py "Heading") [])) = true ->
  int_of_digits env (strip (replace (para_style_name para) (py "Heading") []))
  = Raise ValueError ->
  load_document_content env d file_path = [].
Proof.
  intros Hfile Hno Hdocx Hopen Hin Htext Hsw Hdigit Hint.
  assert (Hpara : paragraph_lines env para = Raise ValueError).
  { unfold paragraph_lines. destruct (strip (para_text para)); [done|].
    by rewrite Hsw, Hdigit, Hint. }
  destruct (paragraphs_lines_raise env _ _ _ Hin Hpara) as [e' He'].
  unfold load_document_content, load_document_try.
  rewrite Hfile, Hno, Hdocx, Hopen. cbn [bind].
  unfold structured_content. by rewrite He'.
Qed.

Lemma undecodable_heading_empties_document_witness :
  load_document_content superscript_env
    (save_study_document empty_disk (py "CT Chest") [x00] IoOk).1
    (get_study_document_path (py "CT Chest"))
  = [].
Proof.
  eapply (undecodable_heading_empties_document superscript_env _ _ [x00]);
    [by vm_compute | reflexivity | reflexivity | reflexivity
    | apply list_elem_of_here | by vm_compute | reflexivity | reflexivity
    | reflexivity].
Defined.

(** ** Thresholds in words *)

(** Above a positive finite bound, and below something: then that is
    above the bound too. *)
Lemma SFltb_SFleb_trans (m : positive) (e : Z) (x y : float) :
  SFltb (S754_finite false m e) x = true -> SFleb x y = true ->
  SFltb (S754_finite false m e) y = true.
Proof.
  unfold SFltb, SFleb.
  destruct x as [sx|sx| |sx mx ex], y as [sy|sy| |sy my ey]; cbn [SFcompare];
    repeat match goal with b : bool |- _ => destruct b end; try done.
  change (Pos.compare_cont Eq ?a ?b) with (Pos.compare a b).
  destruct (Z.compare_spec e ex), (Z.compare_spec ex ey), (Z.compare_spec e ey);
    try done; try lia;
    destruct (Pos.compare_spec m mx), (Pos.compare_spec mx my),
      (Pos.compare_spec m my); try done; lia.
Qed.

Lemma estimate_of_words_mono (n n' : nat) :
  n <= n' -> SFleb (estimate_of_words n) (estimate_of_words n') = true.
Proof. intros H. apply estimate_mono. lia. Qed.

Lemma count_tokens_estimate_of_words (text : str) :
  count_tokens_estimate text = estimate_of_words (word_count text).
Proof. unfold count_tokens_estimate. by rewrite split_length. Qed.

(** An estimate exceeds a bound exactly from the first word count that
    does. *)
Lemma estimate_threshold (bound : Z) (m : positive) (e : Z) (first : Z) :
  float_of_int bound = S754_finite false m e ->
  float_gt_int (fmul (float_of_int first) F1_3) bound = true ->
  float_gt_int (fmul (float_of_int (first - 1)) F1_3) bound = false ->
  (0 < first)%Z ->
  forall n : nat,
    float_gt_int (estimate_of_words n) bound = true <-> (first <= Z.of_nat n)%Z.
Proof.
  intros Hbound Hfirst Hbelow Hpos n. unfold float_gt_int, estimate_of_words in *.
  rewrite Hbound in *. split.
  - intros Hn. destruct (decide (first <= Z.of_nat n)%Z) as [|Hlt]; [done|].
    rewrite (SFltb_SFleb_trans m e _ _ Hn) in Hbelow; [done|].
    apply estimate_mono. lia.
  - intros Hle. apply (SFltb_SFleb_trans m e _ _ Hfirst).
    apply estimate_mono. lia.
Qed.




Lemma float_gt_120000_gt_100000 (x : float) :
  float_gt_int x 120000 = true -> float_gt_int x 100000 = true.
Proof.
  unfold float_gt_int, SFltb.
  change (float_of_int 120000) with (S754_finite false 8246337208320000 (-36)).
  change (float_of_int 100000) with (S754_finite false 6871947673600000 (-36)).
  destruct x as [s|[|]| |[|] m e]; cbn [SFcompare];
    try discriminate; try reflexivity.
  destruct (Z.compare_spec (-36) e) as [He|He|He];
    try discriminate; try reflexivity.
  change (Pos.compare_cont Eq ?a ?b) with (Pos.compare a b).
  destruct (Pos.compare_spec 8246337208320000 m) as [H1|H1|H1];
    try discriminate.
  intros _.
  assert (H2 : (6871947673600000 < m)%positive).
  { eapply Pos.lt_trans; [|exact H1]. reflexivity. }
  apply Pos.compare_lt_iff in H2. by rewrite H2.
Qed.

(** X16. An estimate that the submission refuses has the error banner,
    so an estimate with the success or the warning banner is never
    refused; the converse fails: at 110,000 the banner is the error and
    the API is called. *)
Theorem blocked_implies_error_banner (est_tokens : float) :
  (float_gt_int est_tokens 120000 = true ->
   token_banner est_tokens = BannerError)
  /\ (token_banner est_tokens <> BannerError ->
      forall system_prompt user_prompt : str,
        token_gate est_tokens system_prompt user_prompt
        = ApiCall system_prompt user_prompt)
  /\ token_banner (float_of_int 110000) = BannerError
  /\ (forall system_prompt user_prompt : str,
        token_gate (float_of_int 110000) system_prompt user_prompt
        = ApiCall system_prompt user_prompt).
Proof.
  assert (H : float_gt_int est_tokens 120000 = true ->
              token_banner est_tokens = BannerError).
  { intros H%float_gt_120000_gt_100000. unfold token_banner. by rewrite H. }
  split; [exact H|]. split; [|by split].
  intros Hbanner system_prompt user_prompt. unfold token_gate.
  destruct (float_gt_int est_tokens 120000); [|done]. by destruct Hbanner; apply H.
Qed.

Lemma blocked_implies_error_banner_witness :
  token_banner (float_of_int 125000) = BannerError
  /\ token_gate (float_of_int 40000) (py "s") (py "u") = ApiCall (py "s") (py "u").
Proof.
  split.
  - destruct (blocked_implies_error_banner (float_of_int 125000)) as (H & _).
    apply H. reflexivity.
  - destruct (blocked_implies_error_banner (float_of_int 40000)) as (_ & H & _).
    apply H. discriminate.
Defined.

(** X17. The estimate is never below zero (and so never NaN); it is
    zero exactly for a text without a word; a text with a word has an
    estimate of at least [1.3]. *)
Theorem estimate_is_nonnegative (text : str) :
  SFleb (S754_zero false) (count_tokens_estimate text) = true
  /\ (count_tokens_estimate text = S754_zero false <-> word_count text = 0)
  /\ (0 < word_count text -> SFleb F1_3 (count_tokens_estimate text) = true).
Proof.
  rewrite count_tokens_estimate_of_words.
  assert (Hone : 0 < word_count text ->
                 SFleb F1_3 (estimate_of_words (word_count text)) = true).
  { intros Hpos. apply (estimate_of_words_mono 1). lia. }
  split; [apply (estimate_of_words_mono 0); lia|]. split; [|exact Hone].
  split.
  - intros Hzero. destruct (word_count text) as [|n]; [reflexivity|].
    rewrite Hzero in Hone. specialize (Hone ltac:(lia)). discriminate Hone.
  - intros ->. reflexivity.
Qed.

Lemma estimate_is_nonnegative_witness :
  SFleb F1_3 (count_tokens_estimate (py "nodule")) = true.
Proof.
  destruct (estimate_is_nonnegative (py "nodule")) as (_ & _ & H).
  apply H. vm_compute. lia.
Defined.

(** ** Words and joins *)

Lemma split_loop_word (cur w s : str) :
  Forall (fun c => isspace c = false) w ->
  split_loop cur (w ++ s) = split_loop (rev w ++ cur) s.
Proof.
  intros Hw. revert cur. induction Hw as [|c w Hc _ IH]; intros cur; [done|].
  cbn [app split_loop]. rewrite Hc, IH. cbn [rev]. by rewrite <- app_assoc.
Qed.

Lemma split_join_roundtrip (words : list str) :
  Forall is_word words -> split (join (py " ") words) = words.
Proof.
  intros Hwords. unfold split.
  induction Hwords as [|w rest [Hne Hw] Hrest IH]; [done|].
  destruct rest as [|w' rest].
  - cbn [join]. rewrite <- (app_nil_r w) at 1.
    rewrite split_loop_word, app_nil_r by done. cbn [split_loop].
    destruct (rev w) eqn:Hrev.
    + apply (f_equal length) in Hrev. rewrite length_rev in Hrev.
      by destruct w.
    + by rewrite <- Hrev, rev_involutive.
  - change (join (py " ") (w :: w' :: rest))
      with (w ++ 32%N :: join (py " ") (w' :: rest)).
    rewrite split_loop_word, app_nil_r by done. cbn [split_loop].
    change (isspace 32) with true. cbv iota.
    destruct (rev w) eqn:Hrev.
    + apply (f_equal length) in Hrev. rewrite length_rev in Hrev.
      by destruct w.
    + rewrite <- Hrev, rev_involutive. by rewrite IH.
Qed.

(** X18. For every list of words (non-empty, free of whitespace),
    [split] of the words joined by a space gives the words back, and
    the estimate of the joined text is the product for their number. *)
Theorem split_join_words (words : list str) :
  Forall is_word words ->
  split (join (py " ") words) = words
  /\ count_tokens_estimate (join (py " ") words)
     = estimate_of_words (length words).
Proof.
  intros Hwords%split_join_roundtrip. split; [exact Hwords|].
  unfold count_tokens_estimate. by rewrite Hwords.
Qed.

Lemma split_join_words_witness :
  split (py "no acute findings") = [py "no"; py "acute"; py "findings"].
Proof.
  apply (split_join_words [py "no"; py "acute"; py "findings"]).
  repeat constructor; by vm_compute.
Defined.

(** X19. Joining the words of a text by single spaces changes neither
    its words nor its estimate: the kind and amount of whitespace
    between, before and after the words do not count. *)
Theorem estimate_ignores_spacing (text : str) :
  split (join (py " ") (split text)) = split text
  /\ count_tokens_estimate (join (py " ") (split text))
     = count_tokens_estimate text.
Proof.
  assert (Hs : split (join (py " ") (split text)) = split text)
    by (apply split_join_roundtrip; by apply split_loop_words).
  split; [exact Hs|]. unfold count_tokens_estimate. by rewrite Hs.
Qed.




(** ** The study list *)


(** X21. On a missing [studies.yaml] a successful write creates the
    file and returns the default list, and every later load returns
    the default list and leaves the file as created; a failing write
    raises [OSError] out of the function. *)
Theorem studies_file_created_once (io : yaml_write_outcome) :
  (io = YamlWritten ->
   exists created : studies_file_state,
     load_studies_from_yaml StudiesAbsent io = (created, Ok DEFAULT_STUDIES_LIST)
     /\ forall io' : yaml_write_outcome,
          load_studies_from_yaml created io'
          = (created, Ok DEFAULT_STUDIES_LIST))
  /\ (io <> YamlWritten ->
      (load_studies_from_yaml StudiesAbsent io).2 = Raise OSError).
Proof.
  split.
  - intros ->. eexists. split; [reflexivity|]. intros io'. reflexivity.
  - by destruct io.
Qed.

Lemma studies_file_created_once_witness :
  (load_studies_from_yaml StudiesAbsent YamlOpenFails).2 = Raise OSError
  /\ exists created : studies_file_state,
       load_studies_from_yaml StudiesAbsent YamlWritten
       = (created, Ok DEFAULT_STUDIES_LIST)
       /\ forall io' : yaml_write_outcome,
            load_studies_from_yaml created io' = (created, Ok DEFAULT_STUDIES_LIST).
Proof.
  split.
  - destruct (studies_file_created_once YamlOpenFails) as [_ H]. by apply H.
  - destruct (studies_file_created_once YamlWritten) as [H _]. by apply H.
Defined.

(** ** Session state *)

Lemma submission_handler_inv (env : environment) (d : disk)
    (openai_api_key study_type history findings : str) (outcome : submission) :
  submission_handler env d true openai_api_key study_type history findings
  = Ok outcome ->
  outcome <> NotSubmitted ->
  openai_api_key <> []
  /\ exists template : str,
       get_study_prompt d study_type = Ok (JStr template)
       /\ outcome
          = token_gate
              (count_tokens_estimate
                 (replace template PLACEHOLDER (document_content_for env d study_type)))
              (replace template PLACEHOLDER (document_content_for env d study_type))
              (user_prompt_for study_type history findings).
Proof.
  unfold submission_handler. cbn [andb].
  destruct (decide (openai_api_key = [])) as [->|Hkey]; [by intros [= <-]|].
  rewrite bool_decide_eq_false_2 by done. cbn [negb].
  unfold system_prompt_for.
  destruct (get_study_prompt d study_type) as [[| | |template| |]|e]; try done.
  cbn [bind]. intros [= <-] _. split; [done|]. by exists template.
Qed.



(** ** The display column *)

(** X23. After the display block the impression text of the session is
    whatever the text area returned; the value shown in the text area
    is never empty, so when the text area returns the value it was
    given, the export buttons are enabled, also before any impression
    was generated. *)
Theorem text_area_overwrites_impression (s : session) (impression_area : str) :
  impression_text (sync_impression s impression_area) = impression_area
  /\ document_used (sync_impression s impression_area) = document_used s
  /\ prompt_used (sync_impression s impression_area) = prompt_used s
  /\ text_area_value s <> []
  /\ (impression_area = text_area_value s ->
      export_disabled (sync_impression s impression_area) = false).
Proof.
  assert (Hsync : impression_text (sync_impression s impression_area)
                  = impression_area).
  { unfold sync_impression. by case_bool_decide as H. }
  assert (Hvalue : text_area_value s <> []).
  { unfold text_area_value. by destruct (impression_text s). }
  split; [exact Hsync|]. split; [|split; [|split; [exact Hvalue|]]].
  - unfold sync_impression. by case_bool_decide.
  - unfold sync_impression. by case_bool_decide.
  - intros ->. unfold export_disabled. rewrite Hsync.
    by apply bool_decide_eq_false.
Qed.

Lemma text_area_overwrites_impression_witness :
  impression_text (sync_impression empty_session (text_area_value empty_session))
  = py "Generated impression will appear here..."
  /\ export_disabled (sync_impression empty_session (text_area_value empty_session))
     = false.
Proof.
  destruct (text_area_overwrites_impression empty_session
              (text_area_value empty_session)) as (H1 & _ & _ & _ & H2).
  split; [exact H1 | by apply H2].
Defined.
